(** * JerseyKraft backend (main.py, schemas.py): a shallow embedding

    The FastAPI handlers of [main.py] are embedded as functions in a
    state-and-exception monad over a model of the MongoDB database the
    program talks to.  Python values, the pydantic models of [schemas.py],
    the [csv] reader and the [bson.ObjectId] syntax are modelled first; the
    handlers follow, then the properties of the specification. *)

From Stdlib Require Import ZArith NArith List String Ascii Bool Lia Floats Permutation.
From Stdlib Require Import QArith.
Close Scope Q_scope.
From Stdlib.Strings Require Byte.
Import ListNotations.

Set Implicit Arguments.
Set Warnings "-register-all".

(* ------------------------------------------------------------------ *)
(** * Python values *)
(* ------------------------------------------------------------------ *)

Module Py.

(** A Python [str] is a sequence of Unicode code points. *)
Definition str := list N.

(** An ASCII literal of the source as a [str]. *)
Definition u (s : string) : str := List.map N_of_ascii (list_ascii_of_string s).

Fixpoint str_eqb (a b : str) : bool :=
  match a, b with
  | [], [] => true
  | x :: a', y :: b' => N.eqb x y && str_eqb a' b'
  | _, _ => false
  end.

(** [bytes] *)
Definition bytes := list Byte.byte.

(** The Python (and BSON) values the program handles.  [VOid] is a
    [bson.ObjectId], held as the number its twelve bytes spell. *)
Inductive value : Type :=
| VNone
| VBool (b : bool)
| VInt (z : Z)
| VFloat (f : float)
| VStr (s : str)
| VOid (o : N)
| VList (l : list value)
| VDict (d : list (str * value)).

(** A [dict] with [str] keys keeps its keys in insertion order. *)
Definition dict := list (str * value).

Fixpoint dict_get (k : str) (d : dict) : option value :=
  match d with
  | [] => None
  | (k', v) :: d' => if str_eqb k k' then Some v else dict_get k d'
  end.

(** [d.get(k, default)] *)
Definition dict_get_default (k : str) (default : value) (d : dict) : value :=
  match dict_get k d with Some v => v | None => default end.

(** [d[k] = v]: an existing key keeps its place, a new key goes last. *)
Fixpoint dict_set (k : str) (v : value) (d : dict) : dict :=
  match d with
  | [] => [(k, v)]
  | (k', v') :: d' =>
      if str_eqb k k' then (k', v) :: d' else (k', v') :: dict_set k v d'
  end.

(** [{k': v for k', v in d.items() if k' != k}], also what is left of [d]
    after [d.pop(k)]. *)
Fixpoint dict_remove (k : str) (d : dict) : dict :=
  match d with
  | [] => []
  | (k', v) :: d' =>
      if str_eqb k k' then dict_remove k d' else (k', v) :: dict_remove k d'
  end.

(** Exceptions.  The text of [str(e)] belongs to the libraries that raise;
    an [HTTPException] keeps the exception its detail was printed from. *)
Inductive exn : Type :=
| UnicodeDecodeError
| CsvError
| AttributeError
| TypeError
| ValueError
| OverflowError
| ValidationError
| InvalidDocument
| StorageError
| HTTPException (status_code : Z) (d : detail)
with detail : Type :=
| Detail (s : str)                 (* detail="..." *)
| DetailStr (e : exn)              (* detail=str(e) *)
| DetailInvalidCSV (e : exn).      (* detail=f"Invalid CSV: {str(e)}" *)

Definition result (A : Type) := (exn + A)%type.

(** ** Floats: IEEE 754 binary64 *)

Definition is_finite (f : float) : bool :=
  match Prim2SF f with
  | S754_zero _ | S754_finite _ _ _ => true
  | _ => false
  end.

(** [float(n)] for an [int]: correctly rounded, [OverflowError] when the
    integer is too large for a double. *)
Definition float_of_int (z : Z) : result float :=
  let f := SF2Prim (binary_normalize prec emax z 0 false) in
  if is_finite f then inr f else inl OverflowError.

(** Round half to even of the rational [n / d], for [0 < d]. *)
Definition div_half_even (n d : Z) : Z :=
  let q := (n / d)%Z in
  let r := (n mod d)%Z in
  match (2 * r ?= d)%Z with
  | Lt => q
  | Gt => (q + 1)%Z
  | Eq => if Z.even q then q else (q + 1)%Z
  end.

(** The nearest integer (ties to even) to [m * 2^e * 100]. *)
Definition scaled_hundredths (m e : Z) : Z :=
  if (0 <=? e)%Z then (m * 2 ^ e * 100)%Z
  else div_half_even (m * 100) (2 ^ (- e)).

(** The double nearest to [n / 100], for [0 < n]. *)
Definition hundredths_to_float (s : bool) (n : positive) : float :=
  SF2Prim (SFdiv prec emax (S754_finite s n 0) (S754_finite false 100 0)).

(** [round(x, 2)] on a float: the decimal with two fractional digits
    nearest to the exact value of [x] (ties to even), read back as the
    nearest double; zeros, infinities and nan round to themselves. *)
Definition round2 (x : float) : float :=
  match Prim2SF x with
  | S754_finite s m e =>
      match scaled_hundredths (Zpos m) e with
      | Zpos n => hundredths_to_float s n
      | _ => if s then (-0)%float else 0%float
      end
  | _ => x
  end.

(** [float(v)]: numbers convert, what is not a number or a string is a
    [TypeError].  The parser of [float] on a string is not modelled (the
    program stores floats under the fields it converts): a string is
    answered as one that spells no number. *)
Definition float_of_value (v : value) : result float :=
  match v with
  | VFloat f => inr f
  | VInt z => float_of_int z
  | VBool b => inr (if b then 1%float else 0%float)
  | VStr _ => inl ValueError
  | _ => inl TypeError
  end.

(** ** Text *)

(** [bytes.decode("utf-8")], strict: well-formed UTF-8 only (no overlong
    forms, no surrogates, nothing above U+10FFFF). *)
Definition in_range (lo hi b : N) : bool := (N.leb lo b && N.leb b hi)%bool.
Definition cont (b : N) : bool := in_range 128 191 b.

Fixpoint utf8_decode_N (bs : list N) : option str :=
  match bs with
  | [] => Some []
  | b0 :: r0 =>
      let next (cp : N) (rest : option str) :=
        match rest with Some s => Some (cp :: s) | None => None end in
      if N.ltb b0 128 then next b0 (utf8_decode_N r0)
      else match r0 with
      | [] => None
      | b1 :: r1 =>
        if in_range 194 223 b0 then
          if cont b1
          then next ((b0 - 192) * 64 + (b1 - 128))%N (utf8_decode_N r1)
          else None
        else match r1 with
        | [] => None
        | b2 :: r2 =>
          if in_range 224 239 b0 then
            if (match b0 with
                | 224%N => in_range 160 191 b1
                | 237%N => in_range 128 159 b1
                | _ => cont b1
                end && cont b2)%bool
            then next ((b0 - 224) * 4096 + (b1 - 128) * 64 + (b2 - 128))%N
                      (utf8_decode_N r2)
            else None
          else match r2 with
          | [] => None
          | b3 :: r3 =>
            if in_range 240 244 b0 then
              if (match b0 with
                  | 240%N => in_range 144 191 b1
                  | 244%N => in_range 128 143 b1
                  | _ => cont b1
                  end && cont b2 && cont b3)%bool
              then next ((b0 - 240) * 262144 + (b1 - 128) * 4096
                         + (b2 - 128) * 64 + (b3 - 128))%N
                        (utf8_decode_N r3)
              else None
            else None
          end
        end
      end
  end.

Definition decode_utf8 (content : bytes) : result str :=
  match utf8_decode_N (List.map Byte.to_N content) with
  | Some s => inr s
  | None => inl UnicodeDecodeError
  end.

(** [str.isspace] on one code point. *)
Definition isspace (c : N) : bool :=
  (in_range 9 13 c || in_range 28 32 c || N.eqb c 133 || N.eqb c 160
   || N.eqb c 5760 || in_range 8192 8202 c || N.eqb c 8232 || N.eqb c 8233
   || N.eqb c 8239 || N.eqb c 8287 || N.eqb c 12288)%bool.

Fixpoint lstrip (s : str) : str :=
  match s with
  | c :: s' => if isspace c then lstrip s' else s
  | [] => []
  end.

Definition rstrip (s : str) : str := rev (lstrip (rev s)).

(** [s.strip()] *)
Definition strip (s : str) : str := rstrip (lstrip s).

(** [s.upper()], code point by code point.  ASCII letters, and the two
    other code points whose capital is an ASCII letter (dotless i and
    long s), are mapped; the capitals of the remaining code points lie
    outside ASCII or spell several letters, and are left as they are. *)
Definition upper_char (c : N) : N :=
  if in_range 97 122 c then (c - 32)%N
  else if N.eqb c 305 then 73%N
  else if N.eqb c 383 then 83%N
  else c.

Definition upper (s : str) : str := List.map upper_char s.

End Py.

(* ------------------------------------------------------------------ *)
(** * The csv module: [csv.reader] and [csv.DictReader] *)
(* ------------------------------------------------------------------ *)

Module Csv.
Import Py.

(** The reader's automaton, for the default ("excel") dialect the program
    uses: delimiter [,], quote character, doubled quotes, no escape
    character, not strict.  A NUL character is an ordinary one, as from
    Python 3.11 on. *)
Inductive state :=
| START_RECORD | START_FIELD | IN_FIELD
| IN_QUOTED_FIELD | QUOTE_IN_QUOTED_FIELD | EAT_CRNL.

Definition delimiter : N := 44.
Definition quotechar : N := 34.
Definition LF : N := 10.
Definition CR : N := 13.
Definition field_limit : N := 131072.

(** The field being read and the fields read, both latest first. *)
Record reader := mkReader {
  st : state;
  field : str;
  fields : list str
}.

Definition parse_reset : reader := mkReader START_RECORD [] [].

Inductive input := Chr (c : N) | EOL.

Definition is_newline (i : input) : bool :=
  match i with Chr c => (N.eqb c LF || N.eqb c CR)%bool | EOL => false end.

Definition after_newline (i : input) : state :=
  match i with EOL => START_RECORD | _ => EAT_CRNL end.

Definition parse_add_char (r : reader) (c : N) (s : state) : result reader :=
  if N.leb field_limit (N.of_nat (List.length (field r)))
  then inl CsvError
  else inr (mkReader s (c :: field r) (fields r)).

Definition parse_save_field (r : reader) (s : state) : reader :=
  mkReader s [] (rev (field r) :: fields r).

Definition start_field (r : reader) (i : input) : result reader :=
  match i with
  | EOL => inr (parse_save_field r START_RECORD)
  | Chr c =>
      if is_newline i then inr (parse_save_field r EAT_CRNL)
      else if N.eqb c quotechar then inr (mkReader IN_QUOTED_FIELD (field r) (fields r))
      else if N.eqb c delimiter then inr (parse_save_field r START_FIELD)
      else parse_add_char r c IN_FIELD
  end.

Definition parse_process_char (r : reader) (i : input) : result reader :=
  match st r with
  | START_RECORD =>
      match i with
      | EOL => inr r
      | Chr _ =>
          if is_newline i then inr (mkReader EAT_CRNL (field r) (fields r))
          else start_field r i
      end
  | START_FIELD => start_field r i
  | IN_FIELD =>
      match i with
      | EOL => inr (parse_save_field r START_RECORD)
      | Chr c =>
          if is_newline i then inr (parse_save_field r EAT_CRNL)
          else if N.eqb c delimiter then inr (parse_save_field r START_FIELD)
          else parse_add_char r c IN_FIELD
      end
  | IN_QUOTED_FIELD =>
      match i with
      | EOL => inr r
      | Chr c =>
          if N.eqb c quotechar
          then inr (mkReader QUOTE_IN_QUOTED_FIELD (field r) (fields r))
          else parse_add_char r c IN_QUOTED_FIELD
      end
  | QUOTE_IN_QUOTED_FIELD =>
      match i with
      | EOL => inr (parse_save_field r START_RECORD)
      | Chr c =>
          if N.eqb c quotechar then parse_add_char r c IN_QUOTED_FIELD
          else if N.eqb c delimiter then inr (parse_save_field r START_FIELD)
          else if is_newline i then inr (parse_save_field r EAT_CRNL)
          else parse_add_char r c IN_FIELD
      end
  | EAT_CRNL =>
      match i with
      | EOL => inr (mkReader START_RECORD (field r) (fields r))
      | Chr _ => if is_newline i then inr r else inl CsvError
      end
  end.

Definition is_start_record (s : state) : bool :=
  match s with START_RECORD => true | _ => false end.

(** What the reader yields: the records read, and the error that ended
    the iteration if one did. *)
Definition records := (list (list str) * option exn)%type.

Definition yield (rec : list str) (rs : records) : records :=
  (rec :: fst rs, snd rs).

(** The input is exhausted while a record is being read. *)
Definition at_eof (r : reader) : records :=
  match field r, st r with
  | [], IN_QUOTED_FIELD | _ :: _, _ =>
      ([rev (fields (parse_save_field r START_RECORD))], None)
  | [], _ => ([], None)
  end.

(** The end of a line of the input ([pending]: the line is not empty). *)
Definition end_of_line (r : reader) (k : reader -> records) : records :=
  match parse_process_char r EOL with
  | inl e => ([], Some e)
  | inr r' =>
      if is_start_record (st r') then yield (rev (fields r')) (k parse_reset)
      else k r'
  end.

(** [io.StringIO(text)] hands the reader the lines of [text], each ended
    by its line feed; the reader reads lines until a record is complete. *)
Fixpoint read (r : reader) (pending : bool) (text : str) : records :=
  match text with
  | [] =>
      if pending then end_of_line r (fun r' =>
        if is_start_record (st r') then ([], None) else at_eof r')
      else if is_start_record (st r) then ([], None) else at_eof r
  | c :: text' =>
      match parse_process_char r (Chr c) with
      | inl e => ([], Some e)
      | inr r' =>
          if N.eqb c LF then end_of_line r' (fun r'' => read r'' false text')
          else read r' true text'
      end
  end.

(** [list(csv.reader(io.StringIO(text)))], with the error if one is raised. *)
Definition reader_records (text : str) : records := read parse_reset false text.

(** A row of [csv.DictReader]: the named cells ([None] where the record
    is shorter than the header) and, under the key [None], the cells a
    longer record has left over. *)
Record row := mkRow {
  named : list (str * option str);
  rest : option (list str)
}.

Fixpoint row_get (k : str) (d : list (str * option str)) : option (option str) :=
  match d with
  | [] => None
  | (k', v) :: d' => if str_eqb k k' then Some v else row_get k d'
  end.

Fixpoint row_set (k : str) (v : option str) (d : list (str * option str)) :=
  match d with
  | [] => [(k, v)]
  | (k', v') :: d' =>
      if str_eqb k k' then (k', v) :: d' else (k', v') :: row_set k v d'
  end.

(** [dict(zip(fieldnames, rec))], then the missing keys set to [None]. *)
Fixpoint zip_row (fieldnames rec : list str) (d : list (str * option str)) :=
  match fieldnames, rec with
  | k :: ks, c :: cs => zip_row ks cs (row_set k (Some c) d)
  | k :: ks, [] => zip_row ks [] (row_set k None d)
  | [], _ => d
  end.

Definition make_row (fieldnames rec : list str) : row :=
  mkRow (zip_row fieldnames rec [])
        (if Nat.ltb (List.length fieldnames) (List.length rec)
         then Some (skipn (List.length fieldnames) rec) else None).

Definition is_blank (rec : list str) : bool :=
  match rec with [] => true | _ => false end.

(** [csv.DictReader(io.StringIO(text))]: the first record is the header;
    of the others the empty ones are passed over. *)
Definition DictReader (text : str) : list row * option exn :=
  let (recs, err) := reader_records text in
  match recs with
  | [] => ([], err)
  | fieldnames :: recs' =>
      (List.map (make_row fieldnames)
                (List.filter (fun rec => negb (is_blank rec)) recs'), err)
  end.

(** [not row], for a row as a Python dict. *)
Definition row_is_empty (r : row) : bool :=
  match named r, rest r with [], None => true | _, _ => false end.

(** [row.get(k, default)] *)
Definition get (r : row) (k : str) (default : str) : option str :=
  match row_get k (named r) with Some v => v | None => Some default end.

End Csv.

(* ------------------------------------------------------------------ *)
(** * bson.ObjectId *)
(* ------------------------------------------------------------------ *)

Module ObjectId.
Import Py.

Definition hex_digit (c : N) : option N :=
  if in_range 48 57 c then Some (c - 48)%N
  else if in_range 97 102 c then Some (c - 87)%N
  else if in_range 65 70 c then Some (c - 55)%N
  else None.

(** The white space [bytes.fromhex] skips: ASCII tab, line feed, vertical
    tab, form feed, carriage return and space. *)
Definition is_space (c : N) : bool := in_range 9 13 c || N.eqb c 32.

(** [bytes.fromhex(s)]: pairs of hexadecimal digits, with white space
    allowed before, between and after the pairs (not inside one);
    anything else is a [ValueError]. *)
Fixpoint fromhex (s : str) : option (list N) :=
  match s with
  | [] => Some []
  | c :: s' =>
      if is_space c then fromhex s'
      else
        match hex_digit c, s' with
        | Some top, c' :: s'' =>
            match hex_digit c' with
            | Some bot =>
                match fromhex s'' with
                | Some bs => Some ((top * 16 + bot)%N :: bs)
                | None => None
                end
            | None => None
            end
        | _, _ => None
        end
  end.

(** The bytes of [ObjectId(oid)] for a string: bson asks for 24
    characters and hands them to [bytes.fromhex]; anything it refuses is
    an [InvalidId].  White space among the 24 characters leaves fewer
    than twelve bytes. *)
Definition binary (oid : str) : option (list N) :=
  if Nat.eqb (List.length oid) 24 then fromhex oid else None.

(** [ObjectId.is_valid(oid)]: whether [ObjectId(oid)] can be built. *)
Definition is_valid (oid : str) : bool :=
  match binary oid with Some _ => true | None => false end.

(** The number that bytes spell, most significant first. *)
Definition number (bs : list N) : N :=
  List.fold_left (fun acc b => (acc * 256 + b)%N) bs 0%N.

(** [ObjectId(oid)] as a value to compare with stored identifiers, which
    all have twelve bytes: the number its bytes spell when there are
    twelve of them (that is when [oid] is 24 hexadecimal digits), [None]
    when [oid] is invalid or spells fewer bytes, in which case it is
    equal to no stored identifier. *)
Definition from_str (oid : str) : option N :=
  match binary oid with
  | Some bs => if Nat.eqb (List.length bs) 12 then Some (number bs) else None
  | None => None
  end.

Definition hex_char (d : N) : N := if N.ltb d 10 then (d + 48)%N else (d + 87)%N.

Fixpoint hex_digits (n : nat) (o : N) (acc : str) : str :=
  match n with
  | O => acc
  | S n' => hex_digits n' (o / 16)%N (hex_char (o mod 16)%N :: acc)
  end.

(** [str(oid)]: twenty-four lower-case hexadecimal digits. *)
Definition to_str (o : N) : str := hex_digits 24 o [].

End ObjectId.

(* ------------------------------------------------------------------ *)
(** * schemas.py: the pydantic models *)
(* ------------------------------------------------------------------ *)

Module Schemas.
Import Py.

(** Validation of one field (lax mode, as pydantic applies it to keyword
    arguments). *)
Definition validate_str (v : value) : result str :=
  match v with VStr s => inr s | _ => inl ValidationError end.

Definition validate_optional_str (v : value) : result (option str) :=
  match v with
  | VNone => inr None
  | VStr s => inr (Some s)
  | _ => inl ValidationError
  end.

Fixpoint validate_str_items (l : list value) : result (list str) :=
  match l with
  | [] => inr []
  | v :: l' =>
      match validate_str v, validate_str_items l' with
      | inr s, inr ss => inr (s :: ss)
      | _, _ => inl ValidationError
      end
  end.

Definition validate_list_str (v : value) : result (list str) :=
  match v with VList l => validate_str_items l | _ => inl ValidationError end.

Definition lower_char (c : N) : N := if in_range 65 90 c then (c + 32)%N else c.

Definition str_in (s : str) (l : list string) : bool :=
  existsb (fun x => str_eqb s (u x)) l.

Definition validate_bool (v : value) : result bool :=
  match v with
  | VBool b => inr b
  | VInt 0 => inr false
  | VInt 1 => inr true
  | VFloat f =>
      if PrimFloat.eqb f 0 then inr false
      else if PrimFloat.eqb f 1 then inr true else inl ValidationError
  | VStr s =>
      let s' := List.map lower_char s in
      if str_in s' ["0"; "off"; "f"; "false"; "n"; "no"]%string then inr false
      else if str_in s' ["1"; "on"; "t"; "true"; "y"; "yes"]%string then inr true
      else inl ValidationError
  | _ => inl ValidationError
  end.

Definition dump_optional_str (o : option str) : value :=
  match o with Some s => VStr s | None => VNone end.

Definition dump_list_str (l : list str) : value := VList (List.map VStr l).

(** ** PricingTier *)
Record PricingTier := mkPricingTier {
  tier_name : str;
  base_price : float;         (* ge=0 *)
  min_quantity : Z;           (* default 1, ge=1 *)
  features : list str
}.

Definition PricingTier_dump (t : PricingTier) : dict :=
  [ (u "name", VStr (tier_name t));
    (u "base_price", VFloat (base_price t));
    (u "min_quantity", VInt (min_quantity t));
    (u "features", dump_list_str (features t)) ].

(** ** JerseyTemplate *)
Inductive Sport := cricket | football | basketball | kabaddi | hockey | badminton.

Definition Sport_str (s : Sport) : str :=
  match s with
  | cricket => u "cricket" | football => u "football"
  | basketball => u "basketball" | kabaddi => u "kabaddi"
  | hockey => u "hockey" | badminton => u "badminton"
  end.

Definition find_literal (A : Type) (to_str : A -> str) (all : list A) (s : str)
  : option A :=
  List.find (fun a => str_eqb s (to_str a)) all.

Definition validate_literal (A : Type) (to_str : A -> str) (all : list A)
  (v : value) : result A :=
  match v with
  | VStr s =>
      match find_literal to_str all s with
      | Some a => inr a
      | None => inl ValidationError
      end
  | _ => inl ValidationError
  end.

Definition all_sports := [cricket; football; basketball; kabaddi; hockey; badminton].

Record JerseyTemplate := mkJerseyTemplate {
  sport : Sport;
  template_name : str;
  colors : list str;
  preview_url : option str;
  svg : option str;
  is_public : bool
}.

Definition default_colors : list str := [u "#0A66C2"; u "#FF6F00"].

(** A required field of the keyword arguments. *)
Definition required (A : Type) (validate : value -> result A) (k : str)
  (kwargs : dict) : result A :=
  match dict_get k kwargs with
  | Some v => validate v
  | None => inl ValidationError
  end.

(** A field with a default. *)
Definition optional (A : Type) (validate : value -> result A) (k : str)
  (default : A) (kwargs : dict) : result A :=
  match dict_get k kwargs with
  | Some v => validate v
  | None => inr default
  end.

(** [JerseyTemplate] built from keyword arguments: every field is validated, keys that name
    no field are ignored, any failure raises [ValidationError]. *)
Definition JerseyTemplate_init (kwargs : dict) : result JerseyTemplate :=
  match required (validate_literal Sport_str all_sports) (u "sport") kwargs,
        required validate_str (u "name") kwargs,
        optional validate_list_str (u "colors") default_colors kwargs,
        optional validate_optional_str (u "preview_url") None kwargs,
        optional validate_optional_str (u "svg") None kwargs,
        optional validate_bool (u "is_public") true kwargs with
  | inr sp, inr n, inr c, inr p, inr s, inr b =>
      inr (mkJerseyTemplate sp n c p s b)
  | _, _, _, _, _, _ => inl ValidationError
  end.

Definition JerseyTemplate_dump (t : JerseyTemplate) : dict :=
  [ (u "sport", VStr (Sport_str (sport t)));
    (u "name", VStr (template_name t));
    (u "colors", dump_list_str (colors t));
    (u "preview_url", dump_optional_str (preview_url t));
    (u "svg", dump_optional_str (svg t));
    (u "is_public", VBool (is_public t)) ].

(** ** TeamRosterEntry and Team *)
Module Size.
Inductive t := XS | S | M | L | XL | XXL.
End Size.

Definition Size_str (s : Size.t) : str :=
  match s with
  | Size.XS => u "XS" | Size.S => u "S" | Size.M => u "M"
  | Size.L => u "L" | Size.XL => u "XL" | Size.XXL => u "XXL"
  end.

Definition all_sizes := [Size.XS; Size.S; Size.M; Size.L; Size.XL; Size.XXL].

Record TeamRosterEntry := mkTeamRosterEntry {
  entry_name : str;
  number : str;
  size : Size.t
}.

(** [TeamRosterEntry(name=..., number=..., size=...)] *)
Definition TeamRosterEntry_init (name number size : str) : result TeamRosterEntry :=
  match validate_literal Size_str all_sizes (VStr size) with
  | inr sz => inr (mkTeamRosterEntry name number sz)
  | inl e => inl e
  end.

Definition TeamRosterEntry_dump (e : TeamRosterEntry) : dict :=
  [ (u "name", VStr (entry_name e));
    (u "number", VStr (number e));
    (u "size", VStr (Size_str (size e))) ].

Record Team := mkTeam {
  team_name : str;
  team_sport : str;
  roster : list TeamRosterEntry;
  logo_url : option str;
  sponsor_logo_url : option str
}.

(** [Team(team_name=..., sport=..., roster=...)] *)
Definition Team_init (team_name sport : str) (roster : list TeamRosterEntry) : Team :=
  mkTeam team_name sport roster None None.

Definition Team_dump (t : Team) : dict :=
  [ (u "team_name", VStr (team_name t));
    (u "sport", VStr (team_sport t));
    (u "roster", VList (List.map (fun e => VDict (TeamRosterEntry_dump e)) (roster t)));
    (u "logo_url", dump_optional_str (logo_url t));
    (u "sponsor_logo_url", dump_optional_str (sponsor_logo_url t)) ].

(** ** JerseyDesign *)
Record JerseyDesign := mkJerseyDesign {
  front_color : str;
  back_color : str;
  accents : list str;
  text_elements : list dict;
  logo_elements : list dict
}.

Definition JerseyDesign_dump (d : JerseyDesign) : dict :=
  [ (u "front_color", VStr (front_color d));
    (u "back_color", VStr (back_color d));
    (u "accents", dump_list_str (accents d));
    (u "text_elements", VList (List.map VDict (text_elements d)));
    (u "logo_elements", VList (List.map VDict (logo_elements d))) ].

(** ** PaymentIntent *)
Inductive Method := upi | card | netbanking.

Definition Method_str (m : Method) : str :=
  match m with upi => u "upi" | card => u "card" | netbanking => u "netbanking" end.

Definition all_methods := [upi; card; netbanking].

Inductive IntentStatus := created | processing | intent_paid | intent_failed.

Definition IntentStatus_str (s : IntentStatus) : str :=
  match s with
  | created => u "created" | processing => u "processing"
  | intent_paid => u "paid" | intent_failed => u "failed"
  end.

Record PaymentIntent := mkPaymentIntent {
  intent_order_id : option str;
  intent_amount : float;      (* ge=0 *)
  currency : str;
  method : Method;
  intent_status : IntentStatus
}.

(** [amount >= 0], false for nan. *)
Definition ge0 (f : float) : bool := PrimFloat.leb 0 f.

(** [PaymentIntent(order_id=..., amount=..., method=...)] *)
Definition PaymentIntent_init (order_id : str) (amount : float) (method : str)
  : result PaymentIntent :=
  match validate_literal Method_str all_methods (VStr method) with
  | inr m =>
      if ge0 amount
      then inr (mkPaymentIntent (Some order_id) amount (u "INR") m created)
      else inl ValidationError
  | inl e => inl e
  end.

Definition PaymentIntent_dump (p : PaymentIntent) : dict :=
  [ (u "order_id", dump_optional_str (intent_order_id p));
    (u "amount", VFloat (intent_amount p));
    (u "currency", VStr (currency p));
    (u "method", VStr (Method_str (method p)));
    (u "status", VStr (IntentStatus_str (intent_status p))) ].

(** ** JerseyOrder *)
Inductive PaymentStatus := pending | paid | failed.

Definition PaymentStatus_str (s : PaymentStatus) : str :=
  match s with pending => u "pending" | paid => u "paid" | failed => u "failed" end.

Inductive OrderStatus := Confirmed | InProduction | QC | Shipped.

Definition OrderStatus_str (s : OrderStatus) : str :=
  match s with
  | Confirmed => u "Confirmed" | InProduction => u "In Production"
  | QC => u "QC" | Shipped => u "Shipped"
  end.

Definition all_statuses := [Confirmed; InProduction; QC; Shipped].

Record JerseyOrder := mkJerseyOrder {
  customer_name : str;
  customer_email : str;
  customer_phone : str;
  shipping_address : str;
  team_id : option str;
  template_id : option str;
  design : JerseyDesign;
  quantity : Z;               (* default 1, ge=1 *)
  pricing_tier : option str;
  amount : float;             (* ge=0 *)
  payment_status : PaymentStatus;
  status : OrderStatus
}.

(** [JerseyOrder(customer_name=..., ..., pricing_tier=..., amount=...)], as
    [checkout] calls it: [pricing_tier] is whatever the tier document holds
    under [name]; the two statuses take their defaults. *)
Definition JerseyOrder_init (customer_name customer_email customer_phone
  shipping_address : str) (team_id template_id : option str)
  (design : JerseyDesign) (quantity : Z) (pricing_tier : value) (amount : float)
  : result JerseyOrder :=
  match validate_optional_str pricing_tier with
  | inr tier =>
      if ((1 <=? quantity)%Z && ge0 amount)%bool
      then inr (mkJerseyOrder customer_name customer_email customer_phone
                  shipping_address team_id template_id design quantity tier
                  amount pending Confirmed)
      else inl ValidationError
  | inl e => inl e
  end.

Definition JerseyOrder_dump (o : JerseyOrder) : dict :=
  [ (u "customer_name", VStr (customer_name o));
    (u "customer_email", VStr (customer_email o));
    (u "customer_phone", VStr (customer_phone o));
    (u "shipping_address", VStr (shipping_address o));
    (u "team_id", dump_optional_str (team_id o));
    (u "template_id", dump_optional_str (template_id o));
    (u "design", VDict (JerseyDesign_dump (design o)));
    (u "quantity", VInt (quantity o));
    (u "pricing_tier", dump_optional_str (pricing_tier o));
    (u "amount", VFloat (amount o));
    (u "payment_status", VStr (PaymentStatus_str (payment_status o)));
    (u "status", VStr (OrderStatus_str (status o))) ].

End Schemas.

(* ------------------------------------------------------------------ *)
(** * The database: pymongo's operations on a model of the store *)
(* ------------------------------------------------------------------ *)

Module Database.
Import Py.

(** The collections the program names. *)
Inductive collection := jerseytemplate | team | jerseyorder | paymentintent | pricingtier.

Record Collections := mkCollections {
  in_jerseytemplate : list dict;
  in_team : list dict;
  in_jerseyorder : list dict;
  in_paymentintent : list dict;
  in_pricingtier : list dict
}.

Definition coll (c : collection) (cs : Collections) : list dict :=
  match c with
  | jerseytemplate => in_jerseytemplate cs
  | team => in_team cs
  | jerseyorder => in_jerseyorder cs
  | paymentintent => in_paymentintent cs
  | pricingtier => in_pricingtier cs
  end.

Definition set_coll (c : collection) (docs : list dict) (cs : Collections) : Collections :=
  match c with
  | jerseytemplate =>
      mkCollections docs (in_team cs) (in_jerseyorder cs) (in_paymentintent cs) (in_pricingtier cs)
  | team =>
      mkCollections (in_jerseytemplate cs) docs (in_jerseyorder cs) (in_paymentintent cs) (in_pricingtier cs)
  | jerseyorder =>
      mkCollections (in_jerseytemplate cs) (in_team cs) docs (in_paymentintent cs) (in_pricingtier cs)
  | paymentintent =>
      mkCollections (in_jerseytemplate cs) (in_team cs) (in_jerseyorder cs) docs (in_pricingtier cs)
  | pricingtier =>
      mkCollections (in_jerseytemplate cs) (in_team cs) (in_jerseyorder cs) (in_paymentintent cs) docs
  end.

(** The state of the world a handler runs in: whether the store answers
    ([db] set and the server reachable), what it holds, the next
    identifier it will hand out, and how many operations were sent to it.
    Documents hold Python values; what the driver refuses to encode as
    BSON is refused by [encode] below (the size of a document is not
    bounded in the model). *)
Record Store := mkStore {
  available : bool;
  data : Collections;
  next_id : N;
  accesses : nat
}.

Definition empty_collections : Collections := mkCollections [] [] [] [] [].
Definition empty_store : Store := mkStore true empty_collections 0 0.

(** Computations that read and write the store and may raise. *)
Definition M (A : Type) : Type := Store -> result A * Store.

Definition ret (A : Type) (a : A) : M A := fun s => (inr a, s).

Definition bind (A B : Type) (m : M A) (k : A -> M B) : M B :=
  fun s => match m s with
           | (inr a, s') => k a s'
           | (inl e, s') => (inl e, s')
           end.

Definition raise {A : Type} (e : exn) : M A := fun s => (inl e, s).

(** A pure computation that may raise. *)
Definition lift (A : Type) (r : result A) : M A := fun s => (r, s).

(** [try: m except Exception as e: handler(e)] *)
Definition try_except (A : Type) (m : M A) (handler : exn -> M A) : M A :=
  fun s => match m s with
           | (inl e, s') => handler e s'
           | r => r
           end.

Declare Scope monad_scope.
Delimit Scope monad_scope with monad.
Notation "x <- m ;; k" := (bind m (fun x => k))
  (at level 61, m at next level, right associativity) : monad_scope.
Notation "m ;;; k" := (bind m (fun _ => k))
  (at level 61, right associativity) : monad_scope.
Open Scope monad_scope.

(** One more operation sent to the store. *)
Definition touch (s : Store) : Store :=
  mkStore (available s) (data s) (next_id s) (S (accesses s)).

(** Every operation is sent to the store, which answers or fails. *)
Definition access : M unit :=
  fun s => if available s then (inr tt, touch s) else (inl StorageError, touch s).

Definition read (c : collection) : M (list dict) :=
  fun s => (inr (coll c (data s)), s).

Definition write (c : collection) (docs : list dict) : M unit :=
  fun s => (inr tt, mkStore (available s) (set_coll c docs (data s)) (next_id s) (accesses s)).

Definition fresh_id : M N :=
  fun s => (inr (next_id s), mkStore (available s) (data s) (N.succ (next_id s)) (accesses s)).

Definition _id : str := u "_id".

(** BSON holds integers in at most eight bytes. *)
Definition int64 (z : Z) : bool := ((- 2 ^ 63 <=? z) && (z <? 2 ^ 63))%Z.

(** A key of a BSON document holds no NUL. *)
Definition key_ok (k : str) : bool := negb (List.existsb (N.eqb 0) k).

(** What the driver raises when it encodes a value as BSON, reading the
    value in order: [OverflowError] at an integer beyond eight bytes,
    [InvalidDocument] at a key with a NUL in it. *)
Fixpoint encode_error (v : value) : option exn :=
  match v with
  | VInt z => if int64 z then None else Some OverflowError
  | VList l =>
      (fix items (l : list value) : option exn :=
         match l with
         | [] => None
         | x :: l' =>
             match encode_error x with
             | Some e => Some e
             | None => items l'
             end
         end) l
  | VDict d =>
      (fix pairs (d : list (str * value)) : option exn :=
         match d with
         | [] => None
         | (k, x) :: d' =>
             if key_ok k then
               match encode_error x with
               | Some e => Some e
               | None => pairs d'
               end
             else Some InvalidDocument
         end) d
  | _ => None
  end.

(** The driver encodes what it sends; what it cannot encode is not sent. *)
Definition encode (v : value) : M unit :=
  match encode_error v with
  | Some e => raise e
  | None => ret tt
  end.

(** [db[c].insert_one(doc)] for a document without [_id]: the document is
    stored under a new ObjectId, which is returned. *)
Definition insert_one (c : collection) (doc : dict) : M N :=
  access ;;;
  encode (VDict doc) ;;;
  id <- fresh_id ;;
  docs <- read c ;;
  write c (docs ++ [(_id, VOid id) :: doc]) ;;;
  ret id.

(** [db[c].find()] *)
Definition find (c : collection) : M (list dict) :=
  access ;;; read c.

Definition has_id (o : N) (d : dict) : bool :=
  match dict_get _id d with Some (VOid o') => N.eqb o o' | _ => false end.

(** Whether a document is stored under the ObjectId of a request (see
    [ObjectId.from_str]). *)
Definition has_oid (oid : option N) (d : dict) : bool :=
  match oid with Some o => has_id o d | None => false end.

(** [db[c].find_one({"_id": oid})] *)
Definition find_one_by_id (c : collection) (oid : option N) : M (option dict) :=
  access ;;;
  docs <- read c ;;
  ret (List.find (has_oid oid) docs).

(** A BSON number by its value: an int, or a double that is not nan. *)
Inductive numeric := MinusInf | Finite (x : Q) | PlusInf.

Definition numeric_of_int (z : Z) : numeric := Finite (inject_Z z).

Definition numeric_of_float (f : float) : option numeric :=
  match Prim2SF f with
  | S754_zero _ => Some (Finite 0)
  | S754_infinity s => Some (if s then MinusInf else PlusInf)
  | S754_nan => None
  | S754_finite s m e =>
      Some (Finite (inject_Z (if s then Z.neg m else Z.pos m) * Qpower 2 e)%Q)
  end.

Definition numeric_of (v : value) : option numeric :=
  match v with
  | VInt z => Some (numeric_of_int z)
  | VFloat f => numeric_of_float f
  | _ => None
  end.

Definition numeric_leb (a b : numeric) : bool :=
  match a, b with
  | MinusInf, _ => true
  | _, PlusInf => true
  | Finite x, Finite y => Qle_bool x y
  | _, _ => false
  end.

(** The number a document holds under a key, if it holds one. *)
Definition numeric_field (k : str) (d : dict) : option numeric :=
  match dict_get k d with Some v => numeric_of v | None => None end.

(** The filter [{k: {"$lte": q}}] for an int [q]: the store compares
    numbers by their value, an int with a double too; nan is at most
    nothing, and what is not a number (a missing field, [None], a string)
    does not match.  An array under [k], which the store matches by its
    elements, is not modelled: [PricingTier] stores a number there, and
    what is proved of the choice of a tier is proved of stores without an
    array under min_quantity. *)
Definition matches_lte (k : str) (q : Z) (d : dict) : bool :=
  match numeric_field k d with
  | Some x => numeric_leb x (numeric_of_int q)
  | None => false
  end.

Definition sort_key (k : str) (d : dict) : numeric :=
  match numeric_field k d with Some x => x | None => MinusInf end.

Fixpoint insert_desc (k : str) (d : dict) (l : list dict) : list dict :=
  match l with
  | [] => [d]
  | d' :: l' =>
      if numeric_leb (sort_key k d') (sort_key k d) then d :: l
      else d' :: insert_desc k d l'
  end.

(** [sort=[(k, -1)]]: descending on [k]; documents with equal keys stay in
    the order the store holds them. *)
Definition sort_desc (k : str) (l : list dict) : list dict :=
  List.fold_right (insert_desc k) [] l.

(** The first of the documents that match, in that order. *)
Definition first_lte_desc (k : str) (q : Z) (docs : list dict) : option dict :=
  List.hd_error (sort_desc k (List.filter (matches_lte k q) docs)).

(** [db[c].find_one({k: {"$lte": q}}, sort=[(k, -1)])]: the filter is
    encoded as BSON before it is sent. *)
Definition find_one_lte_desc (c : collection) (k : str) (q : Z) : M (option dict) :=
  access ;;;
  encode (VInt q) ;;;
  docs <- read c ;;
  ret (first_lte_desc k q docs).

Fixpoint set_first (o : N) (k : str) (v : value) (docs : list dict) : list dict :=
  match docs with
  | [] => []
  | d :: docs' =>
      if has_id o d then dict_set k v d :: docs' else d :: set_first o k v docs'
  end.

(** [db[c].update_one({"_id": oid}, {"$set": {k: v}})]: the first document
    with that identifier gets the field; there may be none. *)
Definition update_one_set (c : collection) (oid : option N) (k : str) (v : value) : M unit :=
  access ;;;
  encode v ;;;
  docs <- read c ;;
  write c (match oid with Some o => set_first o k v docs | None => docs end).

(** Modelled from the spec: [database.py], which defines [create_document],
    is not among the sources.  The spec has it insert the serialized entity
    without any internal identifier field and return the newly assigned
    identifier as a string, failing when the store fails. *)
Definition create_document (collection_name : collection) (data : dict) : M str :=
  id <- insert_one collection_name (dict_remove _id data) ;;
  ret (ObjectId.to_str id).

(** Modelled from the spec: [database.py], which defines [get_documents],
    is not among the sources.  The spec has it return all records of the
    collection, failing when the store fails; the records come as the
    store holds them, the caller removing or renaming [_id]. *)
Definition get_documents (collection_name : collection) : M (list dict) :=
  find collection_name.

End Database.

(* ------------------------------------------------------------------ *)
(** * main.py: the handlers *)
(* ------------------------------------------------------------------ *)

Module Main.
Import Py Schemas Database.

(** [raise HTTPException(status_code=500, detail=str(e))] *)
Definition http_500 {A : Type} (e : exn) : M A := raise (HTTPException 500 (DetailStr e)).

Fixpoint map_result (A B : Type) (f : A -> result B) (l : list A) : result (list B) :=
  match l with
  | [] => inr []
  | a :: l' =>
      match f a with
      | inl e => inl e
      | inr b =>
          match map_result f l' with
          | inl e => inl e
          | inr bs => inr (b :: bs)
          end
      end
  end.

(** The JSON body of a list of models. *)
Definition json_list (A : Type) (dump : A -> dict) (l : list A) : value :=
  VList (List.map (fun a => VDict (dump a)) l).

(** GET /api/templates *)
Definition list_templates : M value :=
  try_except
    (docs <- get_documents jerseytemplate ;;
     ts <- lift (map_result (fun d => JerseyTemplate_init (dict_remove _id d)) docs) ;;
     ret (json_list JerseyTemplate_dump ts))
    http_500.

(** POST /api/templates *)
Definition create_template (template : JerseyTemplate) : M value :=
  try_except
    (id <- create_document jerseytemplate (JerseyTemplate_dump template) ;;
     ret (VDict [(u "id", VStr id)]))
    http_500.

(** [row.get(k, default).strip()]: a cell that is [None] has no [strip]. *)
Definition get_strip (r : Csv.row) (k default : string) : result str :=
  match Csv.get r (u k) (u default) with
  | Some s => inr (strip s)
  | None => inl AttributeError
  end.

(** [str(row.get(k, default)).strip()] *)
Definition get_str_strip (r : Csv.row) (k default : string) : str :=
  match Csv.get r (u k) (u default) with
  | Some s => strip s
  | None => strip (u "None")
  end.

(** [s or default] *)
Definition or_default (s default : str) : str :=
  match s with [] => default | _ => s end.

(** The body of the loop over the rows of the roster file. *)
Fixpoint read_roster (rows : list Csv.row) (roster : list TeamRosterEntry)
  : result (list TeamRosterEntry) :=
  match rows with
  | [] => inr roster
  | row :: rows' =>
      if Csv.row_is_empty row then read_roster rows' roster
      else
        match get_strip row "name" EmptyString with
        | inl e => inl e
        | inr name =>
            let number := get_str_strip row "number" EmptyString in
            match get_strip row "size" "M" with
            | inl e => inl e
            | inr size =>
                match TeamRosterEntry_init name number
                        (or_default (upper size) (u "M")) with
                | inl e => inl e
                | inr entry => read_roster rows' (roster ++ [entry])
                end
            end
        end
  end.

(** The reader's own error, raised when the loop asks for the next row. *)
Definition reader_error (err : option exn) : result unit :=
  match err with Some e => inl e | None => inr tt end.

(** POST /api/team/import; [content] is what [csv.file.read()] returned. *)
Definition import_team (team_name sport : str) (content : bytes) : M value :=
  try_except
    (text <- lift (decode_utf8 content) ;;
     let reader := Csv.DictReader text in
     roster <- lift (read_roster (fst reader) []) ;;
     lift (reader_error (snd reader)) ;;;
     let team := Team_init team_name sport roster in
     id <- create_document Database.team (Team_dump team) ;;
     ret (VDict [(u "id", VStr id);
                 (u "count", VInt (Z.of_nat (List.length roster)))]))
    (fun e => raise (HTTPException 400 (DetailInvalidCSV e))).

Record CheckoutRequest := mkCheckoutRequest {
  req_customer_name : str;
  req_customer_email : str;
  req_customer_phone : str;
  req_shipping_address : str;
  req_team_id : option str;
  req_template_id : option str;
  req_design : JerseyDesign;
  req_quantity : Z;
  req_method : str
}.

(** [float(tier_doc.get("base_price", 999.0)) if tier_doc else 999.0] *)
Definition tier_base_price (tier_doc : option dict) : result float :=
  match tier_doc with
  | Some d => float_of_value (dict_get_default (u "base_price") (VFloat 999) d)
  | None => inr 999%float
  end.

(** [tier_doc.get("name") if tier_doc else "Starter"] *)
Definition tier_name_of (tier_doc : option dict) : value :=
  match tier_doc with
  | Some d => dict_get_default (u "name") VNone d
  | None => VStr (u "Starter")
  end.

(** [round(base_price * quantity, 2)] *)
Definition compute_amount (base_price : float) (quantity : Z) : result float :=
  match float_of_int quantity with
  | inr q => inr (round2 (base_price * q))
  | inl e => inl e
  end.

(** The pricing lookup of [checkout]. *)
Definition resolve_tier (quantity : Z) : M (option dict) :=
  find_one_lte_desc pricingtier (u "min_quantity") quantity.

(** POST /api/checkout *)
Definition checkout (req : CheckoutRequest) : M value :=
  try_except
    (tier_doc <- resolve_tier (req_quantity req) ;;
     base_price <- lift (tier_base_price tier_doc) ;;
     amount <- lift (compute_amount base_price (req_quantity req)) ;;
     order <- lift (JerseyOrder_init
                      (req_customer_name req) (req_customer_email req)
                      (req_customer_phone req) (req_shipping_address req)
                      (req_team_id req) (req_template_id req) (req_design req)
                      (req_quantity req) (tier_name_of tier_doc) amount) ;;
     order_id <- create_document jerseyorder (JerseyOrder_dump order) ;;
     pay <- lift (PaymentIntent_init order_id amount (req_method req)) ;;
     payment_id <- create_document paymentintent (PaymentIntent_dump pay) ;;
     ret (VDict [(u "order_id", VStr order_id);
                 (u "payment_id", VStr payment_id);
                 (u "amount", VFloat amount);
                 (u "currency", VStr (u "INR"))]))
    http_500.

Record UpdateStatus := mkUpdateStatus { new_status : str }.

Definition invalid_order_id {A : Type} : M A :=
  raise (HTTPException 400 (Detail (u "Invalid order id"))).

(** POST /api/orders/{order_id}/status *)
Definition update_status (order_id : str) (payload : UpdateStatus) : M value :=
  if negb (ObjectId.is_valid order_id) then invalid_order_id
  else
    try_except
      (update_one_set jerseyorder (ObjectId.from_str order_id)
         (u "status") (VStr (new_status payload)) ;;;
       ret (VDict [(u "ok", VBool true)]))
      http_500.

(** [str(doc.pop("_id"))], for a document found by its ObjectId, which it
    holds under [_id]. *)
Definition pop_id (d : dict) : str :=
  match dict_get _id d with
  | Some (VOid o) => ObjectId.to_str o
  | _ => []
  end.

(** GET /api/orders/{order_id}; the document found holds its identifier
    under [_id], which is popped and put back, printed, under [id]. *)
Definition get_order (order_id : str) : M value :=
  if negb (ObjectId.is_valid order_id) then invalid_order_id
  else
    doc <- find_one_by_id jerseyorder (ObjectId.from_str order_id) ;;
    match doc with
    | None => raise (HTTPException 404 (Detail (u "Not found")))
    | Some d => ret (VDict (dict_set (u "id") (VStr (pop_id d)) (dict_remove _id d)))
    end.

(** POST /api/admin/tiers *)
Definition create_tier (tier : PricingTier) : M value :=
  try_except
    (id <- create_document pricingtier (PricingTier_dump tier) ;;
     ret (VDict [(u "id", VStr id)]))
    http_500.

(** What the client gets: the body a handler returns, the status and
    detail of the [HTTPException] it raises, or the framework's answer
    (500) to any other exception that leaves the handler. *)
Inductive response :=
| Ok (body : value)
| Error (status_code : Z) (d : detail).

Definition internal_server_error : response :=
  Error 500 (Detail (u "Internal Server Error")).

(** The body is rendered as JSON, which has no infinite float, no nan and
    no ObjectId: rendering such a body raises. *)
Fixpoint json_ok (v : value) : bool :=
  match v with
  | VFloat f => is_finite f
  | VOid _ => false
  | VList l => List.forallb json_ok l
  | VDict d => List.forallb (fun kv => match kv with (_, v') => json_ok v' end) d
  | _ => true
  end.

Definition respond (r : result value) : response :=
  match r with
  | inr v => if json_ok v then Ok v else internal_server_error
  | inl (HTTPException c d) => Error c d
  | inl _ => internal_server_error
  end.

Definition serve (handler : M value) (s : Store) : response * Store :=
  let (r, s') := handler s in (respond r, s').

End Main.

(* ------------------------------------------------------------------ *)
(** * Vocabulary of the properties *)
(* ------------------------------------------------------------------ *)

Import Py Schemas Database Main.

(** The body {ok: true}. *)
Definition ok_true : value := VDict [(u "ok", VBool true)].

(** The orders a store holds, and the order stored under an identifier. *)
Definition orders (s : Store) : list dict := coll jerseyorder (data s).

Definition stored_order (s : Store) (oid : N) : option dict :=
  List.find (has_id oid) (orders s).

(** The tiers a store holds, and the field the resolver compares. *)
Definition tiers (s : Store) : list dict := coll pricingtier (data s).

Definition min_quantity_key : str := u "min_quantity".

Definition min_quantity_of (d : dict) : option numeric :=
  numeric_field min_quantity_key d.

(** The order of numbers by value. *)
Definition numeric_le (a b : numeric) : Prop := numeric_leb a b = true.

Definition numeric_lt (a b : numeric) : Prop := numeric_leb b a = false.

(** Tiers as [PricingTier] stores them, with a number under min_quantity:
    no tier of the store holds an array there. *)
Definition no_array (d : dict) : bool :=
  match dict_get min_quantity_key d with
  | Some (VList _) => false
  | _ => true
  end.

Definition scalar_tiers (s : Store) : bool := List.forallb no_array (tiers s).

(** A store whose one tier holds its min_quantity as a double. *)
Definition double_tier_store : Store :=
  mkStore true
    (mkCollections [] [] [] []
       [[(_id, VOid 0); (u "name", VStr (u "Duo")); (u "base_price", VFloat 950);
         (u "min_quantity", VFloat 2)]])
    1 0.

(** A value the driver encodes. *)
Definition encodable (v : value) : bool :=
  match encode_error v with None => true | Some _ => false end.


(** The store a handler leaves behind. *)
Definition after (handler : M value) (s : Store) : Store := snd (serve handler s).

(** The example of the specification: three tiers created through
    POST /api/admin/tiers in an empty store, and an order request. *)
Definition starter_tier : PricingTier := mkPricingTier (u "Starter") 999 1 [].
Definition pro_tier : PricingTier := mkPricingTier (u "Pro") 899 10 [].
Definition elite_tier : PricingTier := mkPricingTier (u "Elite") 799 25 [].

Definition three_tiers : Store :=
  after (create_tier elite_tier)
    (after (create_tier pro_tier)
       (after (create_tier starter_tier) empty_store)).



Definition default_design : JerseyDesign :=
  mkJerseyDesign (u "#0A66C2") (u "#0A66C2") [u "#FF6F00"] [] [].

Definition order_request (quantity : Z) (method : string) : CheckoutRequest :=
  mkCheckoutRequest (u "Asha") (u "asha@example.org") (u "5550100")
    (u "1 Stadium Road") None None default_design quantity (u method).

(** The payment intents a store holds. *)
Definition payments (s : Store) : list dict := coll paymentintent (data s).

(** A document as the store holds it under an identifier. *)
Definition stored (o : N) (d : dict) : dict := (_id, VOid o) :: d.

(** The order [checkout] builds for a request, a tier name and an amount,
    the payment intent that goes with it, and the body it answers with. *)
Definition placed_order (req : CheckoutRequest) (tier : option str) (amount : float)
  : JerseyOrder :=
  mkJerseyOrder (req_customer_name req) (req_customer_email req)
    (req_customer_phone req) (req_shipping_address req) (req_team_id req)
    (req_template_id req) (req_design req) (req_quantity req) tier amount
    pending Confirmed.

Definition intent_for (order_id : str) (amount : float) (m : Method) : PaymentIntent :=
  mkPaymentIntent (Some order_id) amount (u "INR") m created.

Definition checkout_body (order_id payment_id : str) (amount : float) : value :=
  VDict [(u "order_id", VStr order_id);
         (u "payment_id", VStr payment_id);
         (u "amount", VFloat amount);
         (u "currency", VStr (u "INR"))].

(** The templates and the teams a store holds. *)
Definition templates (s : Store) : list dict := coll jerseytemplate (data s).

Definition teams (s : Store) : list dict := coll Database.team (data s).

(** A template document as [create_template] writes it. *)
Definition written_template (d : dict) : Prop :=
  exists (o : N) (t : JerseyTemplate), d = stored o (JerseyTemplate_dump t).

Definition sample_template : JerseyTemplate :=
  mkJerseyTemplate cricket (u "Classic stripes") default_colors None None true.

(** The records of a roster file that are not blank lines. *)
Definition data_records (recs : list (list str)) : list (list str) :=
  List.filter (fun rec => negb (Csv.is_blank rec)) recs.

(** The body of a successful import. *)
Definition import_body (id : str) (roster : list TeamRosterEntry) : value :=
  VDict [(u "id", VStr id); (u "count", VInt (Z.of_nat (List.length roster)))].

(** Roster files of the examples, as the bytes uploaded. *)
Definition line_feed : string := String (ascii_of_nat 10) EmptyString.

Definition file_bytes (s : string) : bytes :=
  List.map byte_of_ascii (list_ascii_of_string s).

Definition roster_with_blank_line : bytes :=
  file_bytes ("name,number,size" ++ line_feed ++ line_feed ++ "Asha,7,xl" ++ line_feed).

Definition roster_with_whitespace_row : bytes :=
  file_bytes ("name,number,size" ++ line_feed ++ " , , " ++ line_feed).

Definition roster_of_one : bytes :=
  file_bytes ("name,number,size" ++ line_feed ++ "Asha,7,xl" ++ line_feed).

Definition unavailable_store : Store := mkStore false empty_collections 0 0.

(** What [checkout] does once the order is written. *)
Definition checkout_payment (req : CheckoutRequest) (amount : float) (order_id : str)
  : M value :=
  pay <- lift (PaymentIntent_init order_id amount (req_method req)) ;;
  payment_id <- create_document paymentintent (PaymentIntent_dump pay) ;;
  ret (VDict [(u "order_id", VStr order_id);
              (u "payment_id", VStr payment_id);
              (u "amount", VFloat amount);
              (u "currency", VStr (u "INR"))]).

(** [checkout] with what follows the writing of the order left open. *)
Definition checkout_with (req : CheckoutRequest) (k : float -> str -> M value) : M value :=
  try_except
    (tier_doc <- resolve_tier (req_quantity req) ;;
     base_price <- lift (tier_base_price tier_doc) ;;
     amount <- lift (compute_amount base_price (req_quantity req)) ;;
     order <- lift (JerseyOrder_init
                      (req_customer_name req) (req_customer_email req)
                      (req_customer_phone req) (req_shipping_address req)
                      (req_team_id req) (req_template_id req) (req_design req)
                      (req_quantity req) (tier_name_of tier_doc) amount) ;;
     order_id <- create_document jerseyorder (JerseyOrder_dump order) ;;
     k amount order_id)
    http_500.

(** Roster files of the further examples. *)
Definition roster_of_two : bytes :=
  file_bytes ("name,number,size" ++ line_feed ++ " Asha , 7 ,xl" ++ line_feed
              ++ line_feed ++ "Bela,10,,captain" ++ line_feed).

Definition roster_with_short_row : bytes :=
  file_bytes ("name,number,size" ++ line_feed ++ "Asha,7,M" ++ line_feed
              ++ "   " ++ line_feed).

Definition roster_with_bad_size : bytes :=
  file_bytes ("name,number,size" ++ line_feed ++ "Asha,7,M" ++ line_feed
              ++ "Bela,10,XXXL" ++ line_feed).

(** A stored document read as a template, as [list_templates] reads it. *)
Definition parse_template (d : dict) : result JerseyTemplate :=
  JerseyTemplate_init (dict_remove _id d).

(** ** Further vocabulary: requests, frames, rosters *)

(** A store with one order, for the examples. *)
Definition sample_order : dict :=
  [(_id, VOid 7); (u "customer_name", VStr (u "Asha")); (u "amount", VFloat 999);
   (u "status", VStr (u "Confirmed"))].

Definition one_order_store : Store :=
  mkStore true (mkCollections [] [] [sample_order] [] []) 8 0.

(** The store after the order of a checkout is written, and after its
    payment intent is. *)
Definition with_order (s : Store) (order : dict) : Store :=
  mkStore true (set_coll jerseyorder (orders s ++ [stored (next_id s) order]) (data s))
    (N.succ (next_id s)) (S (S (accesses s))).

Definition with_payment (s : Store) (payment : dict) : Store :=
  mkStore true (set_coll paymentintent (payments s ++ [stored (next_id s) payment]) (data s))
    (N.succ (next_id s)) (S (accesses s)).


(** The identifiers of the documents of a collection, in the store's order. *)
Definition ids (c : collection) (s : Store) : list (option value) :=
  List.map (dict_get _id) (coll c (data s)).

(** A request to one of the handlers, and the handler that serves it. *)
Inductive request :=
| ListTemplates
| CreateTemplate (template : JerseyTemplate)
| ImportTeam (team_name sport : str) (content : bytes)
| Checkout (req : CheckoutRequest)
| SetStatus (order_id : str) (payload : UpdateStatus)
| GetOrder (order_id : str)
| CreateTier (tier : PricingTier).

Definition handle (r : request) : M value :=
  match r with
  | ListTemplates => list_templates
  | CreateTemplate t => create_template t
  | ImportTeam team_name sport content => import_team team_name sport content
  | Checkout req => checkout req
  | SetStatus order_id payload => update_status order_id payload
  | GetOrder order_id => get_order order_id
  | CreateTier tier => create_tier tier
  end.

(** [s'] holds what [s] held: each collection has the documents of [s]
    under the same identifiers and in the same order, followed by what
    was added. *)
Definition keeps (s s' : Store) : Prop :=
  available s' = available s /\
  forall c, exists new, ids c s' = ids c s ++ new.

(** A computation that, whatever it answers, keeps what the store held. *)
Definition keeping (A : Type) (m : M A) : Prop :=
  forall s, keeps s (snd (m s)).

(** A computation that leaves the stored documents as they are. *)
Definition reading (A : Type) (m : M A) : Prop :=
  forall s, data (snd (m s)) = data s.

(** Templates created one after the other. *)
Definition create_all (ts : list JerseyTemplate) (s : Store) : Store :=
  List.fold_left (fun s' t => after (create_template t) s') ts s.

(** The header of a roster file, and the entry the import makes of a
    record under it: the first three cells, the first two stripped, the
    third stripped, put in upper case and read as a size, M when blank. *)
Definition roster_header : list str := [u "name"; u "number"; u "size"].

Definition size_of_cell (z : str) : option Size.t :=
  find_literal Size_str all_sizes (or_default (upper (strip z)) (u "M")).

Definition is_entry_of (rec : list str) (e : TeamRosterEntry) : Prop :=
  exists n k z tl sz,
    rec = n :: k :: z :: tl /\ size_of_cell z = Some sz /\
    e = mkTeamRosterEntry (strip n) (strip k) sz.

(** The keys [JerseyTemplate] reads. *)
Definition template_fields : list str :=
  [u "sport"; u "name"; u "colors"; u "preview_url"; u "svg"; u "is_public"].

(** The order a store holds under the identifier [checkout] answered. *)
Definition order_json (o : JerseyOrder) (order_id : str) : value :=
  VDict (JerseyOrder_dump o ++ [(u "id", VStr order_id)]).

Definition two_to_96 : N := 2 ^ 96.

(** Two documents that hold the same under the six keys of a template. *)
Definition same_template_fields (d d' : dict) : Prop :=
  forall f, In f template_fields -> dict_get f d = dict_get f d'.

(* ------------------------------------------------------------------ *)
(** * Properties *)
(* ------------------------------------------------------------------ *)

Unset Implicit Arguments.

(** ** The models on small inputs *)

(** [round(2.675, 2)] is 2.67 (the double nearest to 2.675 lies below it),
    [round(0.125, 2)] is 0.12 (a tie goes to the even digit), and
    [round(0.1 + 0.2, 2)] is the double 0.3. *)
Example round2_below_half : round2 0x1.5666666666666p+1 = 0x1.55c28f5c28f5cp+1%float.
Proof. reflexivity. Qed.

Example round2_tie_to_even : round2 0.125 = 0x1.eb851eb851eb8p-4%float.
Proof. reflexivity. Qed.

Example round2_sum : round2 (0x1.999999999999ap-4 + 0x1.999999999999ap-3)
                     = 0x1.3333333333333p-2%float.
Proof. reflexivity. Qed.

Example round2_price : round2 (899 * 15) = 13485%float.
Proof. reflexivity. Qed.

(** An int too large for a double does not convert. *)
Example float_of_int_overflow : float_of_int (2 ^ 1024) = inl OverflowError.
Proof. reflexivity. Qed.

(** The two bytes of U+00E9 decode to it; a lone continuation byte, an
    overlong form and an encoded surrogate do not decode. *)
Example decode_e_acute : decode_utf8 [Byte.xc3; Byte.xa9] = inr [233%N].
Proof. reflexivity. Qed.

Example decode_rejects :
  decode_utf8 [Byte.x80] = inl UnicodeDecodeError /\
  decode_utf8 [Byte.xc0; Byte.xaf] = inl UnicodeDecodeError /\
  decode_utf8 [Byte.xed; Byte.xa0; Byte.x80] = inl UnicodeDecodeError.
Proof. repeat split. Qed.

(** A blank line is the empty record, a line of commas a record of empty
    fields, and a quoted field may hold a comma and a line feed. *)
Example reader_blank_and_empty_fields :
  Csv.reader_records (u ("a,b" ++ line_feed ++ line_feed ++ ",," ++ line_feed))
  = ([[u "a"; u "b"]; []; [[]; []; []]], None).
Proof. reflexivity. Qed.

Example reader_quoted_field :
  Csv.reader_records
    ([34; 120; 44; 10; 121; 34; 44; 49; 10]%N)
  = ([[[120; 44; 10; 121]%N; u "1"]], None).
Proof. reflexivity. Qed.

(** A carriage return inside an unquoted field is an error of the reader. *)
Example reader_stray_carriage_return :
  Csv.reader_records [97; 13; 98]%N = ([], Some CsvError).
Proof. reflexivity. Qed.

(** A record shorter than the header leaves [None] under the missing
    keys; a longer one leaves its extra cells under the key [None]. *)
Example make_row_short_and_long :
  Csv.make_row [u "name"; u "size"] [u "Asha"]
  = Csv.mkRow [(u "name", Some (u "Asha")); (u "size", None)] None /\
  Csv.make_row [u "name"] [u "Asha"; u "7"]
  = Csv.mkRow [(u "name", Some (u "Asha"))] (Some [u "7"]).
Proof. split; reflexivity. Qed.

(** Identifiers: 24 hexadecimal characters, printed in lower case. *)
Example object_id_syntax :
  ObjectId.is_valid (u "0123456789abcdefABCDEF00") = true /\
  ObjectId.is_valid (u "0123456789abcdef") = false /\
  ObjectId.is_valid (u "0123456789abcdefABCDEF0g") = false /\
  option_map ObjectId.to_str (ObjectId.from_str (u "0123456789abcdefABCDEF00"))
  = Some (u "0123456789abcdefabcdef00").
Proof. repeat split. Qed.

(** White space between the pairs of digits is skipped: 22 digits and two
    spaces make a valid identifier of eleven bytes, which is the
    identifier of no stored document; white space inside a pair does not
    pass. *)
Example object_id_white_space :
  ObjectId.is_valid (u "0123456789abcdef012345  ") = true /\
  ObjectId.from_str (u "0123456789abcdef012345  ") = None /\
  ObjectId.is_valid (u "0 123456789abcdef012345 ") = false.
Proof. repeat split. Qed.

(** ** Strings and dicts *)

Lemma str_eqb_refl (a : str) : str_eqb a a = true.
Proof.
  induction a as [|x a IH]; simpl; [reflexivity|].
  now rewrite N.eqb_refl, IH.
Qed.

Lemma str_eqb_eq (a b : str) : str_eqb a b = true <-> a = b.
Proof.
  split; [|intros ->; apply str_eqb_refl].
  revert b; induction a as [|x a IH]; intros [|y b]; simpl; try discriminate; auto.
  intros H; apply andb_true_iff in H as [Hx Ha].
  apply N.eqb_eq in Hx; subst; f_equal; auto.
Qed.

Lemma dict_get_set_same (k : str) (v : value) (d : dict) :
  dict_get k (dict_set k v d) = Some v.
Proof.
  induction d as [|[k' v'] d IH]; simpl.
  - now rewrite str_eqb_refl.
  - destruct (str_eqb k k') eqn:E; simpl; rewrite E; auto.
Qed.

Lemma dict_get_set_other (k k' : str) (v : value) (d : dict) :
  str_eqb k' k = false -> dict_get k' (dict_set k v d) = dict_get k' d.
Proof.
  intros Hk; induction d as [|[k0 v0] d IH]; simpl.
  - now rewrite Hk.
  - destruct (str_eqb k k0) eqn:E; simpl.
    + apply str_eqb_eq in E; subst k0. now rewrite Hk.
    + now rewrite IH.
Qed.

Lemma dict_set_idem (k : str) (v : value) (d : dict) :
  dict_set k v (dict_set k v d) = dict_set k v d.
Proof.
  induction d as [|[k' v'] d IH]; simpl.
  - now rewrite str_eqb_refl.
  - destruct (str_eqb k k') eqn:E; simpl; rewrite E; [reflexivity|].
    now rewrite IH.
Qed.

(** ** Running the monad *)

(** One step of a handler: the next bind, and the pure computation it
    runs if it is one. *)
Ltac step := unfold bind at 1; try unfold lift at 1.

Lemma access_up (s : Store) :
  available s = true -> access s = (inr tt, touch s).
Proof. intros H; unfold access; now rewrite H. Qed.

Lemma access_down (s : Store) :
  available s = false -> access s = (inl StorageError, touch s).
Proof. intros H; unfold access; now rewrite H. Qed.

(** ** Updates by identifier *)

Lemma has_id_set (o : N) (k : str) (v : value) (d : dict) :
  str_eqb _id k = false -> has_id o (dict_set k v d) = has_id o d.
Proof. intros Hk; unfold has_id; now rewrite dict_get_set_other. Qed.

Lemma set_first_idem (o : N) (k : str) (v : value) (docs : list dict) :
  str_eqb _id k = false ->
  set_first o k v (set_first o k v docs) = set_first o k v docs.
Proof.
  intros Hk; induction docs as [|d docs IH]; simpl; [reflexivity|].
  destruct (has_id o d) eqn:E; simpl.
  - now rewrite has_id_set, E, dict_set_idem.
  - now rewrite E, IH.
Qed.

Lemma set_first_absent (o : N) (k : str) (v : value) (docs : list dict) :
  (forall d, In d docs -> has_id o d = false) -> set_first o k v docs = docs.
Proof.
  induction docs as [|d docs IH]; simpl; intros H; [reflexivity|].
  rewrite (H d) by auto. f_equal; apply IH; auto.
Qed.

Lemma find_set_first (o : N) (k : str) (v : value) (docs : list dict) (d : dict) :
  str_eqb _id k = false ->
  List.find (has_id o) docs = Some d ->
  List.find (has_id o) (set_first o k v docs) = Some (dict_set k v d).
Proof.
  intros Hk; induction docs as [|d0 docs IH]; simpl; [discriminate|].
  destruct (has_id o d0) eqn:E; simpl.
  - intros [= <-]. now rewrite has_id_set, E.
  - now rewrite E.
Qed.

Lemma set_coll_same (c : collection) (cs : Collections) :
  set_coll c (coll c cs) cs = cs.
Proof. destruct c, cs; reflexivity. Qed.

Lemma coll_set_coll (c : collection) (docs : list dict) (cs : Collections) :
  coll c (set_coll c docs cs) = docs.
Proof. destruct c; reflexivity. Qed.

Lemma set_coll_twice (c : collection) (docs docs' : list dict) (cs : Collections) :
  set_coll c docs' (set_coll c docs cs) = set_coll c docs' cs.
Proof. destruct c; reflexivity. Qed.

Lemma from_str_is_valid (order_id : str) (oid : N) :
  ObjectId.from_str order_id = Some oid -> ObjectId.is_valid order_id = true.
Proof.
  unfold ObjectId.from_str, ObjectId.is_valid.
  now destruct (ObjectId.binary order_id).
Qed.

(** What [update_status] does to a store that answers. *)
Lemma update_status_run (s : Store) (order_id : str) (oid : N) (status : str) :
  available s = true ->
  ObjectId.from_str order_id = Some oid ->
  serve (update_status order_id (mkUpdateStatus status)) s =
    (Ok (VDict [(u "ok", VBool true)]),
     mkStore true
       (set_coll jerseyorder
          (set_first oid (u "status") (VStr status) (coll jerseyorder (data s)))
          (data s))
       (next_id s) (S (accesses s))).
Proof.
  intros Hup Hid.
  unfold serve, update_status.
  rewrite (from_str_is_valid _ _ Hid), Hid; cbn [negb].
  unfold try_except, update_one_set, bind.
  rewrite (access_up _ Hup); simpl. now rewrite Hup.
Qed.

(** ** Order status updates *)

(** C9. Each of the four order states (Confirmed, In Production, QC,
    Shipped) is accepted by POST /api/orders/{order_id}/status, and the
    update can be repeated: for an existing order of a store that
    answers, setting the same status twice answers {ok: true} both times,
    the order holds that status after the first call, and the second call
    leaves the stored data as the first left it. *)
Theorem update_status_idempotent :
  forall (s : Store) (order_id : str) (oid : N) (d : dict) (status : OrderStatus),
    available s = true ->
    ObjectId.from_str order_id = Some oid ->
    stored_order s oid = Some d ->
    let payload := mkUpdateStatus (OrderStatus_str status) in
    let (r1, s1) := serve (update_status order_id payload) s in
    let (r2, s2) := serve (update_status order_id payload) s1 in
    r1 = Ok ok_true /\ r2 = Ok ok_true /\
    (exists d1, stored_order s1 oid = Some d1 /\
                dict_get (u "status") d1 = Some (VStr (OrderStatus_str status))) /\
    data s2 = data s1.
Proof.
  intros s order_id oid d status Hup Hid Hd payload.
  unfold payload.
  rewrite (@update_status_run s order_id oid _ Hup Hid).
  rewrite (@update_status_run _ order_id oid _) by (simpl; auto).
  repeat split.
  - exists (dict_set (u "status") (VStr (OrderStatus_str status)) d).
    unfold stored_order, orders; cbn [data].
    rewrite coll_set_coll.
    split; [apply find_set_first; auto | apply dict_get_set_same].
  - cbn [data]. rewrite coll_set_coll, set_coll_twice, set_first_idem; auto.
Qed.

Lemma update_status_idempotent_witness :
  let s := mkStore true
             (mkCollections [] [] [[(_id, VOid 7); (u "status", VStr (u "Confirmed"))]] [] [])
             8 0 in
  let (r1, s1) := serve (update_status (u "000000000000000000000007")
                           (mkUpdateStatus (OrderStatus_str Shipped))) s in
  let (r2, s2) := serve (update_status (u "000000000000000000000007")
                           (mkUpdateStatus (OrderStatus_str Shipped))) s1 in
  r1 = Ok ok_true /\ r2 = Ok ok_true /\
  (exists d1, stored_order s1 7 = Some d1 /\
              dict_get (u "status") d1 = Some (VStr (OrderStatus_str Shipped))) /\
  data s2 = data s1.
Proof.
  exact (@update_status_idempotent
           (mkStore true
              (mkCollections [] [] [[(_id, VOid 7); (u "status", VStr (u "Confirmed"))]] [] [])
              8 0)
           (u "000000000000000000000007") 7
           [(_id, VOid 7); (u "status", VStr (u "Confirmed"))] Shipped
           eq_refl eq_refl eq_refl).
Defined.

(** C10. POST /api/orders/{order_id}/status answers {ok: true} for every
    status string and every well-formed order_id (the store answering): a
    string outside the four order states is written to the stored order
    as it is, and an identifier that matches no stored order still gets
    {ok: true} (not 404) while the stored data stay as they were. *)
Theorem update_status_unchecked :
  forall (s : Store) (order_id : str) (oid : N) (status : str),
    available s = true ->
    ObjectId.from_str order_id = Some oid ->
    let (r, s') := serve (update_status order_id (mkUpdateStatus status)) s in
    r = Ok ok_true /\
    (forall d, stored_order s oid = Some d ->
       exists d', stored_order s' oid = Some d' /\
                  dict_get (u "status") d' = Some (VStr status)) /\
    (stored_order s oid = None -> data s' = data s).
Proof.
  intros s order_id oid status Hup Hid.
  rewrite (@update_status_run s order_id oid _ Hup Hid).
  split; [reflexivity|split].
  - intros d Hd. exists (dict_set (u "status") (VStr status) d).
    unfold stored_order, orders; cbn [data]. rewrite coll_set_coll.
    split; [apply find_set_first; auto | apply dict_get_set_same].
  - intros Hnone; cbn [data].
    rewrite set_first_absent; [apply set_coll_same|].
    intros d Hin. destruct (has_id oid d) eqn:E; [|reflexivity].
    unfold stored_order in Hnone.
    now apply (find_none _ _ Hnone) in Hin; rewrite E in Hin.
Qed.

Lemma update_status_unchecked_witness :
  let s := mkStore true
             (mkCollections [] [] [[(_id, VOid 7); (u "status", VStr (u "Confirmed"))]] [] [])
             8 0 in
  find_literal OrderStatus_str all_statuses (u "Lost in transit") = None /\
  let (r, s') := serve (update_status (u "000000000000000000000007")
                          (mkUpdateStatus (u "Lost in transit"))) s in
  r = Ok ok_true /\
  (forall d, stored_order s 7 = Some d ->
     exists d', stored_order s' 7 = Some d' /\
                dict_get (u "status") d' = Some (VStr (u "Lost in transit"))) /\
  (stored_order s 7 = None -> data s' = data s).
Proof.
  split; [reflexivity|].
  exact (@update_status_unchecked
           (mkStore true
              (mkCollections [] [] [[(_id, VOid 7); (u "status", VStr (u "Confirmed"))]] [] [])
              8 0)
           (u "000000000000000000000007") 7 (u "Lost in transit")
           eq_refl eq_refl).
Defined.

(** ** Order lookup *)



(** ** Roster import: encoding *)

(** C8. When the uploaded roster file is not valid UTF-8, POST
    /api/team/import answers 400 and the import fails as a whole: nothing
    is sent to the store and no Team is persisted. *)
Theorem import_team_rejects_invalid_utf8 :
  forall (s : Store) (team_name sport : str) (content : bytes),
    utf8_decode_N (List.map Byte.to_N content) = None ->
    serve (import_team team_name sport content) s
    = (Error 400 (DetailInvalidCSV UnicodeDecodeError), s).
Proof.
  intros s team_name sport content Hbad.
  unfold serve, import_team, try_except, bind, lift, decode_utf8.
  now rewrite Hbad.
Qed.

Lemma import_team_rejects_invalid_utf8_witness :
  serve (import_team (u "Lions") (u "cricket")
           [Byte.x6e; Byte.x61; Byte.x6d; Byte.x65; Byte.x0a; Byte.xff; Byte.x0a])
        empty_store
  = (Error 400 (DetailInvalidCSV UnicodeDecodeError), empty_store).
Proof.
  exact (@import_team_rejects_invalid_utf8 empty_store (u "Lions") (u "cricket")
           [Byte.x6e; Byte.x61; Byte.x6d; Byte.x65; Byte.x0a; Byte.xff; Byte.x0a]
           eq_refl).
Defined.

(** ** The pricing lookup *)

Lemma numeric_leb_refl (a : numeric) : numeric_leb a a = true.
Proof. destruct a; [reflexivity| |reflexivity]. apply Qle_bool_iff, Qle_refl. Qed.

Lemma numeric_leb_trans (a b c : numeric) :
  numeric_leb a b = true -> numeric_leb b c = true -> numeric_leb a c = true.
Proof.
  destruct a, b, c; cbn; try reflexivity; try discriminate.
  rewrite !Qle_bool_iff. apply Qle_trans.
Qed.

Lemma numeric_leb_total (a b : numeric) :
  numeric_leb a b = false -> numeric_leb b a = true.
Proof.
  destruct a, b; cbn; try reflexivity; try discriminate.
  intros H. apply Qle_bool_iff.
  destruct (Qlt_le_dec x x0) as [Hlt|Hle]; [|exact Hle].
  apply Qlt_le_weak, Qle_bool_iff in Hlt. congruence.
Qed.

Lemma numeric_of_int_le (a b : Z) :
  (a <= b)%Z -> numeric_leb (numeric_of_int a) (numeric_of_int b) = true.
Proof. intros H. apply Qle_bool_iff. now rewrite <- Zle_Qle. Qed.

Lemma insert_desc_in (k : str) (d x : dict) (l : list dict) :
  In x (insert_desc k d l) <-> x = d \/ In x l.
Proof.
  induction l as [|d' l IH]; simpl.
  - intuition.
  - destruct (numeric_leb (sort_key k d') (sort_key k d)); simpl; [|rewrite IH]; intuition.
Qed.

Lemma sort_desc_in (k : str) (x : dict) (l : list dict) :
  In x (sort_desc k l) <-> In x l.
Proof.
  induction l as [|d l IH]; simpl; [reflexivity|].
  rewrite insert_desc_in, IH. intuition.
Qed.

Lemma hd_insert_desc (k : str) (d : dict) (l : list dict) :
  hd_error (insert_desc k d l) =
  Some (match hd_error l with
        | Some d' => if numeric_leb (sort_key k d') (sort_key k d) then d else d'
        | None => d
        end).
Proof.
  destruct l as [|d' l]; simpl; [reflexivity|].
  now destruct (numeric_leb (sort_key k d') (sort_key k d)).
Qed.

(** The first document of a descending sort has the greatest key. *)
Lemma hd_sort_desc_max (k : str) (l : list dict) (d : dict) :
  hd_error (sort_desc k l) = Some d ->
  forall x, In x l -> numeric_leb (sort_key k x) (sort_key k d) = true.
Proof.
  revert d; induction l as [|a l IH]; intros d Hd x Hx; [destruct Hx|].
  simpl in Hd. rewrite hd_insert_desc in Hd.
  destruct (hd_error (sort_desc k l)) as [b|] eqn:Hb.
  - specialize (IH b eq_refl).
    destruct (numeric_leb (sort_key k b) (sort_key k a)) eqn:E; injection Hd as <-.
    + destruct Hx as [<-|Hx]; [apply numeric_leb_refl|].
      exact (numeric_leb_trans _ _ _ (IH x Hx) E).
    + apply numeric_leb_total in E.
      destruct Hx as [<-|Hx]; [exact E|auto].
  - injection Hd as <-. destruct Hx as [<-|Hx]; [apply numeric_leb_refl|].
    apply (sort_desc_in k) in Hx.
    destruct (sort_desc k l); [destruct Hx|discriminate].
Qed.

Lemma hd_sort_desc_in (k : str) (l : list dict) (d : dict) :
  hd_error (sort_desc k l) = Some d -> In d l.
Proof.
  intros Hd. apply (sort_desc_in k).
  destruct (sort_desc k l); [discriminate|]. injection Hd as <-. now left.
Qed.

Lemma hd_sort_desc_none (k : str) (l : list dict) :
  hd_error (sort_desc k l) = None -> l = [].
Proof.
  intros Hd. destruct l as [|a l]; [reflexivity|].
  simpl in Hd. now rewrite hd_insert_desc in Hd.
Qed.

Lemma matches_lte_iff (k : str) (q : Z) (d : dict) :
  matches_lte k q d = true <->
  exists m, numeric_field k d = Some m /\ numeric_le m (numeric_of_int q).
Proof.
  unfold matches_lte, numeric_le. destruct (numeric_field k d) as [m|].
  - split; [eauto|]. now intros (m' & [= <-] & H).
  - split; [discriminate|]. now intros (m' & [=] & _).
Qed.

(** What the sorted, filtered lookup returns. *)
Lemma first_lte_desc_spec (k : str) (q : Z) (docs : list dict) :
  match first_lte_desc k q docs with
  | Some d =>
      In d docs /\
      exists m, numeric_field k d = Some m /\ numeric_le m (numeric_of_int q) /\
        forall d' m', In d' docs -> numeric_field k d' = Some m' ->
                      numeric_le m' (numeric_of_int q) -> numeric_le m' m
  | None =>
      forall d' m', In d' docs -> numeric_field k d' = Some m' ->
                    numeric_lt (numeric_of_int q) m'
  end.
Proof.
  unfold first_lte_desc.
  destruct (hd_error (sort_desc k (filter (matches_lte k q) docs))) as [d|] eqn:Hd.
  - pose proof (hd_sort_desc_in _ _ _ Hd) as Hin.
    apply filter_In in Hin as [Hin Hm].
    apply matches_lte_iff in Hm as (m & Hm & Hle).
    split; [assumption|]. exists m; repeat split; auto.
    intros d' m' Hin' Hm' Hle'.
    assert (Hf : In d' (filter (matches_lte k q) docs)).
    { apply filter_In; split; [assumption|]. apply matches_lte_iff; eauto. }
    pose proof (hd_sort_desc_max _ _ _ Hd _ Hf) as Hmax.
    unfold sort_key in Hmax. now rewrite Hm, Hm' in Hmax.
  - intros d' m' Hin' Hm'.
    apply hd_sort_desc_none in Hd.
    unfold numeric_lt.
    destruct (numeric_leb m' (numeric_of_int q)) eqn:Hle; [exfalso|reflexivity].
    assert (Hf : In d' (filter (matches_lte k q) docs)).
    { apply filter_In; split; [assumption|]. apply matches_lte_iff; eauto. }
    now rewrite Hd in Hf.
Qed.

Lemma resolve_tier_run (s : Store) (q : Z) :
  available s = true ->
  int64 q = true ->
  resolve_tier q s = (inr (first_lte_desc min_quantity_key q (tiers s)), touch s).
Proof.
  intros Hup Hq. unfold resolve_tier, find_one_lte_desc, bind, encode.
  rewrite (access_up _ Hup). cbn [encode_error]. now rewrite Hq.
Qed.

Lemma resolve_tier_overflow (s : Store) (q : Z) :
  available s = true ->
  int64 q = false ->
  resolve_tier q s = (inl OverflowError, touch s).
Proof.
  intros Hup Hq. unfold resolve_tier, find_one_lte_desc, bind, encode.
  rewrite (access_up _ Hup). cbn [encode_error]. now rewrite Hq.
Qed.

(** A lookup that answers was asked for a quantity of at most eight bytes. *)
Lemma resolve_tier_inv (s : Store) (q : Z) (tier_doc : option dict) :
  available s = true ->
  fst (resolve_tier q s) = inr tier_doc ->
  int64 q = true /\ tier_doc = first_lte_desc min_quantity_key q (tiers s).
Proof.
  intros Hup Hres. destruct (int64 q) eqn:Hq.
  - rewrite (resolve_tier_run _ _ Hup Hq) in Hres. now injection Hres as <-.
  - now rewrite (resolve_tier_overflow _ _ Hup Hq) in Hres.
Qed.

(** Numbers are compared by value: a tier that holds 2.0 under
    min_quantity is selected for the quantity 2, and not for 1. *)
Example lookup_compares_by_value :
  (exists d, fst (resolve_tier 2 double_tier_store) = inr (Some d) /\
             dict_get (u "name") d = Some (VStr (u "Duo"))) /\
  fst (resolve_tier 1 double_tier_store) = inr None.
Proof. split; [eexists; split; reflexivity|reflexivity]. Qed.

(** C1, as the code has it. For every quantity q that fits the eight
    bytes of a BSON integer, the pricing lookup of checkout, on a store
    that answers and whose tiers hold no array under min_quantity,
    selects among the stored tiers whose min_quantity is at most q one
    whose min_quantity is greatest (numbers compared by value); when no
    stored tier has min_quantity at most q (the tier table may be empty)
    it selects none, and checkout falls back to the tier name Starter and
    the base price 999.0.  For a quantity beyond eight bytes the lookup
    raises, and checkout answers 500 and writes nothing. *)
Theorem resolver_selects_best_tier :
  forall (s : Store) (q : Z),
    available s = true ->
    (int64 q = true ->
     scalar_tiers s = true ->
     exists tier_doc : option dict,
       fst (resolve_tier q s) = inr tier_doc /\
       match tier_doc with
       | Some d =>
           In d (tiers s) /\
           exists m, min_quantity_of d = Some m /\ numeric_le m (numeric_of_int q) /\
             forall d' m', In d' (tiers s) -> min_quantity_of d' = Some m' ->
                           numeric_le m' (numeric_of_int q) -> numeric_le m' m
       | None =>
           (forall d' m', In d' (tiers s) -> min_quantity_of d' = Some m' ->
                          numeric_lt (numeric_of_int q) m') /\
           tier_name_of tier_doc = VStr (u "Starter") /\
           tier_base_price tier_doc = inr 999%float
       end) /\
    (int64 q = false ->
     fst (resolve_tier q s) = inl OverflowError /\
     forall req, req_quantity req = q ->
       serve (checkout req) s = (Error 500 (DetailStr OverflowError), touch s)).
Proof.
  intros s q Hup. split.
  - intros Hq _.
    exists (first_lte_desc min_quantity_key q (tiers s)).
    rewrite (resolve_tier_run _ _ Hup Hq); split; [reflexivity|].
    pose proof (first_lte_desc_spec min_quantity_key q (tiers s)) as H.
    destruct (first_lte_desc min_quantity_key q (tiers s)); [exact H|].
    repeat split; auto.
  - intros Hq. rewrite (resolve_tier_overflow _ _ Hup Hq). split; [reflexivity|].
    intros req <-. unfold serve, checkout, try_except.
    unfold bind at 1. now rewrite (resolve_tier_overflow _ _ Hup Hq).
Qed.

Lemma resolver_selects_best_tier_witness :
  (exists tier_doc : option dict,
     fst (resolve_tier 15 three_tiers) = inr tier_doc /\
     match tier_doc with
     | Some d =>
         In d (tiers three_tiers) /\
         exists m, min_quantity_of d = Some m /\ numeric_le m (numeric_of_int 15) /\
           forall d' m', In d' (tiers three_tiers) -> min_quantity_of d' = Some m' ->
                         numeric_le m' (numeric_of_int 15) -> numeric_le m' m
     | None =>
         (forall d' m', In d' (tiers three_tiers) -> min_quantity_of d' = Some m' ->
                        numeric_lt (numeric_of_int 15) m') /\
         tier_name_of tier_doc = VStr (u "Starter") /\
         tier_base_price tier_doc = inr 999%float
     end) /\
  fst (resolve_tier (2 ^ 64) three_tiers) = inl OverflowError /\
  serve (checkout (order_request (2 ^ 64) "upi")) three_tiers
  = (Error 500 (DetailStr OverflowError), touch three_tiers).
Proof.
  split; [|split].
  - exact (proj1 (@resolver_selects_best_tier three_tiers 15 eq_refl) eq_refl eq_refl).
  - exact (proj1 (proj2 (@resolver_selects_best_tier three_tiers (2 ^ 64) eq_refl) eq_refl)).
  - exact (proj2 (proj2 (@resolver_selects_best_tier three_tiers (2 ^ 64) eq_refl) eq_refl)
             (order_request (2 ^ 64) "upi") eq_refl).
Defined.

(** C1 as stated fails: for the quantity 2^63 the lookup selects no tier
    and falls back to none, it raises (the filter cannot be encoded), and
    checkout answers 500 without an order or a payment intent. *)
Lemma resolver_raises_beyond_eight_bytes :
  fst (resolve_tier (2 ^ 63) three_tiers) = inl OverflowError /\
  (forall tier_doc, fst (resolve_tier (2 ^ 63) three_tiers) <> inr tier_doc) /\
  (let (r, s') := serve (checkout (order_request (2 ^ 63) "upi")) three_tiers in
   r = Error 500 (DetailStr OverflowError) /\ orders s' = [] /\ payments s' = []).
Proof.
  split; [reflexivity|split]; [intros tier_doc; vm_compute; discriminate|].
  vm_compute. repeat split.
Qed.

(** ** Checkout *)

Lemma JerseyOrder_dump_no_id (o : JerseyOrder) :
  dict_remove _id (JerseyOrder_dump o) = JerseyOrder_dump o.
Proof. reflexivity. Qed.

Lemma PaymentIntent_dump_no_id (p : PaymentIntent) :
  dict_remove _id (PaymentIntent_dump p) = PaymentIntent_dump p.
Proof. reflexivity. Qed.

(** What the driver always encodes: the documents without integers and
    with the keys of the schemas. *)
Lemma encode_error_cons (k : str) (x : value) (d : dict) :
  encode_error (VDict ((k, x) :: d)) =
  if key_ok k then
    match encode_error x with
    | Some e => Some e
    | None => encode_error (VDict d)
    end
  else Some InvalidDocument.
Proof. reflexivity. Qed.

Lemma encode_error_items (x : value) (l : list value) :
  encode_error (VList (x :: l)) =
  match encode_error x with
  | Some e => Some e
  | None => encode_error (VList l)
  end.
Proof. reflexivity. Qed.

Lemma encode_error_list_str (l : list str) : encode_error (dump_list_str l) = None.
Proof.
  unfold dump_list_str. induction l as [|x l IH]; [reflexivity|].
  cbn [List.map]. now rewrite encode_error_items.
Qed.

Lemma encode_error_optional_str (o : option str) :
  encode_error (dump_optional_str o) = None.
Proof. now destruct o. Qed.

(** The fields of a dumped model, one after the other. *)
Ltac fields :=
  repeat (rewrite encode_error_cons; change (key_ok (u _)) with true; cbv iota;
          try first [ rewrite encode_error_list_str
                    | rewrite encode_error_optional_str
                    | change (encode_error (VStr _)) with (@None exn)
                    | change (encode_error (VFloat _)) with (@None exn)
                    | change (encode_error (VBool _)) with (@None exn) ];
          cbv iota);
  change (encode_error (VDict [])) with (@None exn).

Lemma encode_error_template (t : JerseyTemplate) :
  encode_error (VDict (JerseyTemplate_dump t)) = None.
Proof. unfold JerseyTemplate_dump. now fields. Qed.

Lemma encode_error_roster (l : list TeamRosterEntry) :
  encode_error (VList (List.map (fun e => VDict (TeamRosterEntry_dump e)) l)) = None.
Proof.
  induction l as [|e l IH]; [reflexivity|].
  cbn [List.map]. rewrite encode_error_items.
  unfold TeamRosterEntry_dump at 1. fields. exact IH.
Qed.

Lemma encode_error_team (t : Team) : encode_error (VDict (Team_dump t)) = None.
Proof.
  unfold Team_dump. fields. now rewrite encode_error_roster.
Qed.

Lemma encode_error_payment (p : PaymentIntent) :
  encode_error (VDict (PaymentIntent_dump p)) = None.
Proof. unfold PaymentIntent_dump. now fields. Qed.

Lemma encode_error_tier (t : PricingTier) :
  int64 (min_quantity t) = true -> encode_error (VDict (PricingTier_dump t)) = None.
Proof. intros H. unfold PricingTier_dump. fields. cbn [encode_error]. now rewrite H. Qed.

Lemma encode_error_order (o : JerseyOrder) :
  int64 (quantity o) = true ->
  encodable (VDict (JerseyDesign_dump (design o))) = true ->
  encode_error (VDict (JerseyOrder_dump o)) = None.
Proof.
  unfold encodable. intros Hq Hd. unfold JerseyOrder_dump. fields.
  destruct (encode_error (VDict (JerseyDesign_dump (design o)))); [discriminate|].
  cbn [encode_error]. now rewrite Hq.
Qed.

Lemma create_document_run (s : Store) (c : collection) (d : dict) :
  available s = true ->
  encode_error (VDict (dict_remove _id d)) = None ->
  create_document c d s =
    (inr (ObjectId.to_str (next_id s)),
     mkStore true
       (set_coll c (coll c (data s) ++ [stored (next_id s) (dict_remove _id d)]) (data s))
       (N.succ (next_id s)) (S (accesses s))).
Proof.
  intros Hup Hd. unfold create_document, insert_one, bind, encode.
  rewrite (access_up _ Hup), Hd. cbn. now rewrite Hup.
Qed.

(** A document the driver does not encode is not written. *)
Lemma create_document_refused (s : Store) (c : collection) (d : dict) (e : exn) :
  available s = true ->
  encode_error (VDict (dict_remove _id d)) = Some e ->
  create_document c d s = (inl e, touch s).
Proof.
  intros Hup Hd. unfold create_document, insert_one, bind, encode.
  now rewrite (access_up _ Hup), Hd.
Qed.

Lemma create_document_down (s : Store) (c : collection) (d : dict) :
  available s = false ->
  create_document c d s = (inl StorageError, touch s).
Proof.
  intros Hdown. unfold create_document, insert_one, bind.
  now rewrite (access_down _ Hdown).
Qed.

Lemma json_ok_checkout_body (order_id payment_id : str) (amount : float) :
  is_finite amount = true -> json_ok (checkout_body order_id payment_id amount) = true.
Proof. intros H. cbn. now rewrite H. Qed.






(** ** Checkout with a quantity below one *)

(** C7, as the code has it. A checkout request whose quantity is an
    integer below 1 is rejected, and no order or payment intent is
    persisted; the answer is the handler's catch-all 500, carrying the
    exception that stopped it. *)
Theorem checkout_rejects_quantity_below_one :
  forall (s : Store) (req : CheckoutRequest),
    (req_quantity req < 1)%Z ->
    exists (e : exn) (s' : Store),
      serve (checkout req) s = (Error 500 (DetailStr e), s') /\
      orders s' = orders s /\ payments s' = payments s.
Proof.
  intros s req Hq.
  enough (exists e, serve (checkout req) s = (Error 500 (DetailStr e), touch s))
    as (e & He) by (exists e, (touch s); auto).
  unfold serve, checkout, try_except.
  unfold bind at 1, resolve_tier, find_one_lte_desc.
  unfold bind at 1, access.
  destruct (available s) eqn:Hup; [|eexists; reflexivity].
  unfold bind at 1, encode; cbn [encode_error].
  destruct (int64 (req_quantity req)); [|eexists; reflexivity].
  unfold ret at 1.
  unfold bind at 1, read at 1, ret at 1.
  step.
  destruct (tier_base_price _) as [e|bp]; [eexists; reflexivity|].
  step.
  destruct (compute_amount bp (req_quantity req)) as [e|amount]; [eexists; reflexivity|].
  step; unfold JerseyOrder_init.
  destruct (validate_optional_str _) as [e|tier]; [eexists; reflexivity|].
  apply Z.leb_gt in Hq. rewrite Hq. cbn [andb].
  eexists; reflexivity.
Qed.

Lemma checkout_rejects_quantity_below_one_witness :
  exists (e : exn) (s' : Store),
    serve (checkout (order_request 0 "upi")) three_tiers = (Error 500 (DetailStr e), s') /\
    orders s' = orders three_tiers /\ payments s' = payments three_tiers.
Proof.
  exact (checkout_rejects_quantity_below_one three_tiers (order_request 0 "upi")
           ltac:(cbn; lia)).
Defined.

(** C7 as stated fails: a checkout for quantity 0 is answered with status
    500, not 400. *)
Lemma checkout_quantity_zero_is_500 :
  fst (serve (checkout (order_request 0 "upi")) three_tiers)
  = Error 500 (DetailStr ValidationError)
  /\ forall d, fst (serve (checkout (order_request 0 "upi")) three_tiers) <> Error 400 d.
Proof.
  split; [reflexivity|]. intros d; vm_compute; discriminate.
Qed.

(** ** Templates: create, then list *)

Lemma validate_str_items_dump (l : list str) :
  validate_str_items (List.map VStr l) = inr l.
Proof. induction l as [|x l IH]; simpl; [reflexivity|now rewrite IH]. Qed.

Lemma validate_optional_str_dump (o : option str) :
  validate_optional_str (dump_optional_str o) = inr o.
Proof. now destruct o. Qed.

Lemma validate_sport_dump (sp : Sport) :
  validate_literal Sport_str all_sports (VStr (Sport_str sp)) = inr sp.
Proof. now destruct sp. Qed.

(** A template read back from its stored document is the template. *)
Lemma JerseyTemplate_roundtrip (o : N) (t : JerseyTemplate) :
  JerseyTemplate_init (dict_remove _id (stored o (JerseyTemplate_dump t))) = inr t.
Proof.
  destruct t as [sp n c p sv b].
  change (dict_remove _id (stored o (JerseyTemplate_dump (mkJerseyTemplate sp n c p sv b))))
    with (JerseyTemplate_dump (mkJerseyTemplate sp n c p sv b)).
  unfold JerseyTemplate_init, required, optional; cbn [JerseyTemplate_dump
    sport template_name colors preview_url svg is_public].
  change (dict_get (u "sport") _) with (Some (VStr (Sport_str sp))).
  change (dict_get (u "name") _) with (Some (VStr n)).
  change (dict_get (u "colors") _) with (Some (dump_list_str c)).
  change (dict_get (u "preview_url") _) with (Some (dump_optional_str p)).
  change (dict_get (u "svg") _) with (Some (dump_optional_str sv)).
  change (dict_get (u "is_public") _) with (Some (VBool b)).
  cbv iota. rewrite validate_sport_dump, !validate_optional_str_dump.
  unfold validate_list_str, dump_list_str. rewrite validate_str_items_dump.
  reflexivity.
Qed.

Lemma map_result_app {A B : Type} (f : A -> result B) (l : list A) (a : A)
  (bs : list B) (b : B) :
  map_result f l = inr bs -> f a = inr b ->
  map_result f (l ++ [a]) = inr (bs ++ [b]).
Proof.
  revert bs; induction l as [|x l IH]; simpl; intros bs Hl Ha.
  - injection Hl as <-. now rewrite Ha.
  - destruct (f x) as [e|y]; [discriminate|].
    destruct (map_result f l) as [e|ys]; [discriminate|].
    injection Hl as <-. now rewrite (IH ys eq_refl Ha).
Qed.

Lemma written_templates_parse (docs : list dict) :
  Forall written_template docs ->
  exists ts, map_result (fun d => JerseyTemplate_init (dict_remove _id d)) docs = inr ts.
Proof.
  induction 1 as [|d docs (o & t & ->) _ (ts & IH)]; cbn [map_result].
  - now exists [].
  - rewrite JerseyTemplate_roundtrip, IH. now exists (t :: ts).
Qed.

Lemma json_ok_list_str (l : list str) : json_ok (dump_list_str l) = true.
Proof.
  unfold dump_list_str; cbn [json_ok].
  induction l as [|x l IH]; [reflexivity|exact IH].
Qed.

Lemma json_ok_template (t : JerseyTemplate) : json_ok (VDict (JerseyTemplate_dump t)) = true.
Proof.
  destruct t as [sp n c p sv b].
  unfold JerseyTemplate_dump; cbn [json_ok List.forallb sport template_name colors
    preview_url svg is_public].
  rewrite json_ok_list_str. now destruct p, sv.
Qed.

Lemma json_ok_templates (ts : list JerseyTemplate) :
  json_ok (json_list JerseyTemplate_dump ts) = true.
Proof.
  unfold json_list; cbn [json_ok].
  induction ts as [|t ts IH]; [reflexivity|].
  cbn [List.map List.forallb]. now rewrite json_ok_template, IH.
Qed.

Lemma list_templates_run (s : Store) (ts : list JerseyTemplate) :
  available s = true ->
  map_result (fun d => JerseyTemplate_init (dict_remove _id d)) (templates s) = inr ts ->
  serve list_templates s = (Ok (json_list JerseyTemplate_dump ts), touch s).
Proof.
  intros Hup Hts.
  unfold serve, list_templates, try_except, get_documents, find.
  unfold bind, lift. rewrite (access_up _ Hup).
  unfold read; cbn [touch data]. fold (templates s). rewrite Hts.
  unfold ret; cbn [respond]. now rewrite json_ok_templates.
Qed.

Lemma JerseyTemplate_dump_no_id (t : JerseyTemplate) :
  dict_remove _id (JerseyTemplate_dump t) = JerseyTemplate_dump t.
Proof. reflexivity. Qed.

Lemma create_template_run (s : Store) (t : JerseyTemplate) :
  available s = true ->
  serve (create_template t) s =
    (Ok (VDict [(u "id", VStr (ObjectId.to_str (next_id s)))]),
     mkStore true
       (set_coll jerseytemplate
          (templates s ++ [stored (next_id s) (JerseyTemplate_dump t)]) (data s))
       (N.succ (next_id s)) (S (accesses s))).
Proof.
  intros Hup. unfold serve, create_template, try_except.
  unfold bind at 1. rewrite create_document_run;
    [|exact Hup|rewrite JerseyTemplate_dump_no_id; apply encode_error_template].
  now rewrite JerseyTemplate_dump_no_id.
Qed.

(** C3, as the code has it. For every JerseyTemplate, creating it through
    POST /api/templates (which answers the new identifier as id) and then
    listing through GET /api/templates gives a list that includes the
    created record with all of its fields as they were sent; the listed
    records carry the fields of the model only: the store's identifier is
    removed, and appears neither as _id nor as id. *)
Theorem template_post_then_get :
  forall (s : Store) (t : JerseyTemplate),
    available s = true ->
    Forall written_template (templates s) ->
    let (r1, s1) := serve (create_template t) s in
    let (r2, s2) := serve list_templates s1 in
    r1 = Ok (VDict [(u "id", VStr (ObjectId.to_str (next_id s)))]) /\
    exists listed : list JerseyTemplate,
      r2 = Ok (json_list JerseyTemplate_dump listed) /\
      In t listed /\
      forall t', In t' listed ->
        dict_get (u "id") (JerseyTemplate_dump t') = None /\
        dict_get _id (JerseyTemplate_dump t') = None.
Proof.
  intros s t Hup Hall.
  rewrite (create_template_run s t Hup).
  destruct (written_templates_parse _ Hall) as (ts & Hts).
  rewrite (list_templates_run _ (ts ++ [t])).
  - split; [reflexivity|]. exists (ts ++ [t]).
    split; [reflexivity|]. split; [apply in_or_app; right; now left|].
    intros t' _; split; reflexivity.
  - reflexivity.
  - unfold templates; cbn [data]. rewrite coll_set_coll.
    apply map_result_app; [exact Hts|apply JerseyTemplate_roundtrip].
Qed.

Lemma template_post_then_get_witness :
  let (r1, s1) := serve (create_template sample_template) empty_store in
  let (r2, s2) := serve list_templates s1 in
  r1 = Ok (VDict [(u "id", VStr (ObjectId.to_str 0))]) /\
  exists listed : list JerseyTemplate,
    r2 = Ok (json_list JerseyTemplate_dump listed) /\
    In sample_template listed /\
    forall t', In t' listed ->
      dict_get (u "id") (JerseyTemplate_dump t') = None /\
      dict_get _id (JerseyTemplate_dump t') = None.
Proof.
  exact (template_post_then_get empty_store sample_template eq_refl (Forall_nil _)).
Defined.

(** C3 as stated fails: the record listed after a create has no id field. *)
Lemma listed_template_has_no_id :
  let (r1, s1) := serve (create_template sample_template) empty_store in
  let (r2, s2) := serve list_templates s1 in
  r1 = Ok (VDict [(u "id", VStr (ObjectId.to_str 0))]) /\
  r2 = Ok (VList [VDict (JerseyTemplate_dump sample_template)]) /\
  dict_get (u "id") (JerseyTemplate_dump sample_template) = None.
Proof. vm_compute. repeat split. Qed.

(** ** Roster import: rows *)

Lemma row_set_not_nil (k : str) (v : option str) (d : list (str * option str)) :
  Csv.row_set k v d <> [].
Proof.
  destruct d as [|[k' v'] d]; simpl; [discriminate|].
  destruct (str_eqb k k'); discriminate.
Qed.

Lemma zip_row_not_nil (fieldnames rec : list str) (d : list (str * option str)) :
  d <> [] -> Csv.zip_row fieldnames rec d <> [].
Proof.
  revert rec d; induction fieldnames as [|k ks IH]; intros rec d Hd; simpl.
  - exact Hd.
  - destruct rec as [|c cs]; apply IH; apply row_set_not_nil.
Qed.

(** The row made of a record that has a field is never an empty dict: the
    test [if not row] of the loop lets it through. *)
Lemma make_row_not_empty (fieldnames rec : list str) :
  Csv.is_blank rec = false -> Csv.row_is_empty (Csv.make_row fieldnames rec) = false.
Proof.
  intros Hrec. unfold Csv.row_is_empty, Csv.make_row; cbn [Csv.named Csv.rest].
  destruct fieldnames as [|k ks].
  - destruct rec as [|c cs]; [discriminate|reflexivity].
  - destruct (Csv.zip_row (k :: ks) rec []) eqn:E; [|reflexivity].
    exfalso. revert E.
    destruct rec as [|c cs]; [discriminate Hrec|].
    cbn [Csv.zip_row]. apply zip_row_not_nil, row_set_not_nil.
Qed.

(** Every row that is not an empty dict adds one entry to the roster. *)
Lemma read_roster_length (rows : list Csv.row) (acc roster : list TeamRosterEntry) :
  Forall (fun r => Csv.row_is_empty r = false) rows ->
  read_roster rows acc = inr roster ->
  List.length roster = (List.length acc + List.length rows)%nat.
Proof.
  intros Hall; revert acc; induction Hall as [|r rows Hr _ IH]; intros acc; simpl.
  - intros [= <-]. lia.
  - rewrite Hr.
    destruct (get_strip r "name" EmptyString) as [e|name]; [discriminate|].
    destruct (get_strip r "size" "M") as [e|size]; [discriminate|].
    destruct (TeamRosterEntry_init _ _ _) as [e|entry]; [discriminate|].
    intros H. rewrite (IH _ H), length_app. simpl; lia.
Qed.

Lemma DictReader_rows (text : str) (header : list str) (recs : list (list str))
  (err : option exn) :
  Csv.reader_records text = (header :: recs, err) ->
  Csv.DictReader text = (List.map (Csv.make_row header) (data_records recs), err).
Proof. intros H. unfold Csv.DictReader. now rewrite H. Qed.

Lemma data_rows_not_empty (header : list str) (recs : list (list str)) :
  Forall (fun r => Csv.row_is_empty r = false)
         (List.map (Csv.make_row header) (data_records recs)).
Proof.
  apply Forall_forall. intros r Hr.
  apply in_map_iff in Hr as (rec & <- & Hrec).
  apply filter_In in Hrec as [_ Hrec].
  apply make_row_not_empty. now destruct (Csv.is_blank rec).
Qed.

Lemma Team_dump_no_id (t : Team) : dict_remove _id (Team_dump t) = Team_dump t.
Proof. reflexivity. Qed.

(** What [import_team] did when it answers with a body. *)
Lemma import_team_ok (s s' : Store) (team_name sport : str) (content : bytes)
  (body : value) :
  serve (import_team team_name sport content) s = (Ok body, s') ->
  exists text roster,
    decode_utf8 content = inr text /\
    read_roster (fst (Csv.DictReader text)) [] = inr roster /\
    body = import_body (ObjectId.to_str (next_id s)) roster /\
    teams s' = teams s ++ [stored (next_id s) (Team_dump (Team_init team_name sport roster))].
Proof.
  unfold serve, import_team, try_except.
  step.
  destruct (decode_utf8 content) as [e|text]; [discriminate|].
  step.
  destruct (read_roster (fst (Csv.DictReader text)) []) as [e|roster] eqn:Hroster;
    [discriminate|].
  step.
  destruct (reader_error (snd (Csv.DictReader text))) as [e|[]]; [discriminate|].
  unfold bind at 1.
  destruct (available s) eqn:Hup.
  - rewrite create_document_run;
      [|exact Hup|rewrite Team_dump_no_id; apply encode_error_team].
    rewrite Team_dump_no_id.
    unfold ret, raise; cbn [respond]. intros [= <- <-].
    exists text, roster. repeat split; assumption.
  - rewrite create_document_down by exact Hup. discriminate.
Qed.

(** C5, as the code has it. During CSV roster import a blank line is read
    as a record without fields, and the records without fields are the
    ones skipped: when an import succeeds, the persisted Team has exactly
    one roster entry for each record after the header that has a field,
    and none for the blank lines. *)
Theorem import_skips_blank_lines :
  (forall text' : str,
     Csv.read Csv.parse_reset false (Csv.LF :: text')
     = Csv.yield [] (Csv.read Csv.parse_reset false text')) /\
  (forall text' : str,
     Csv.read Csv.parse_reset false (Csv.CR :: Csv.LF :: text')
     = Csv.yield [] (Csv.read Csv.parse_reset false text')) /\
  (forall (s s' : Store) (team_name sport : str) (content : bytes) (text : str)
          (header : list str) (recs : list (list str)) (err : option exn)
          (body : value),
     decode_utf8 content = inr text ->
     Csv.reader_records text = (header :: recs, err) ->
     serve (import_team team_name sport content) s = (Ok body, s') ->
     exists roster : list TeamRosterEntry,
       body = import_body (ObjectId.to_str (next_id s)) roster /\
       teams s' = teams s ++
         [stored (next_id s) (Team_dump (Team_init team_name sport roster))] /\
       List.length roster = List.length (data_records recs)).
Proof.
  split; [reflexivity|]. split; [reflexivity|].
  intros s s' team_name sport content text header recs err body Htext Hrecs Hrun.
  destruct (import_team_ok _ _ _ _ _ _ Hrun) as (text0 & roster & Htext0 & Hroster & Hbody & Hteams).
  rewrite Htext in Htext0. injection Htext0 as <-.
  exists roster. repeat split; [assumption..|].
  rewrite (DictReader_rows _ _ _ _ Hrecs) in Hroster; cbn [fst] in Hroster.
  rewrite (read_roster_length _ _ _ (data_rows_not_empty header recs) Hroster).
  now rewrite length_map.
Qed.

Lemma import_skips_blank_lines_witness :
  exists roster : list TeamRosterEntry,
    import_body (ObjectId.to_str 0) [mkTeamRosterEntry (u "Asha") (u "7") Size.XL]
    = import_body (ObjectId.to_str (next_id empty_store)) roster /\
    teams (after (import_team (u "Lions") (u "cricket") roster_with_blank_line) empty_store)
    = teams empty_store ++
        [stored (next_id empty_store)
           (Team_dump (Team_init (u "Lions") (u "cricket") roster))] /\
    List.length roster
    = List.length (data_records [[]; [u "Asha"; u "7"; u "xl"]]).
Proof.
  exact (proj2 (proj2 import_skips_blank_lines)
           empty_store
           (after (import_team (u "Lions") (u "cricket") roster_with_blank_line) empty_store)
           (u "Lions") (u "cricket") roster_with_blank_line
           (u ("name,number,size" ++ line_feed ++ line_feed ++ "Asha,7,xl" ++ line_feed))
           [u "name"; u "number"; u "size"]
           [[]; [u "Asha"; u "7"; u "xl"]] None
           (import_body (ObjectId.to_str 0) [mkTeamRosterEntry (u "Asha") (u "7") Size.XL])
           eq_refl eq_refl eq_refl).
Defined.

(** C5 as stated fails: a row whose three fields hold only a space is not
    skipped; it becomes a roster entry with an empty name, an empty number
    and the size M, and the Team is persisted with it. *)
Lemma whitespace_row_is_imported :
  let (r, s') := serve (import_team (u "Lions") (u "cricket") roster_with_whitespace_row)
                       empty_store in
  r = Ok (import_body (ObjectId.to_str 0) [mkTeamRosterEntry [] [] Size.M]) /\
  teams s' = [stored 0 (Team_dump (Team_init (u "Lions") (u "cricket")
                                     [mkTeamRosterEntry [] [] Size.M]))].
Proof. vm_compute. split; reflexivity. Qed.

(** ** Storage failures *)

Lemma import_team_down (s : Store) (team_name sport : str) (content : bytes)
  (text : str) (roster : list TeamRosterEntry) :
  available s = false ->
  decode_utf8 content = inr text ->
  read_roster (fst (Csv.DictReader text)) [] = inr roster ->
  snd (Csv.DictReader text) = None ->
  serve (import_team team_name sport content) s
  = (Error 400 (DetailInvalidCSV StorageError), touch s).
Proof.
  intros Hdown Htext Hroster Herr.
  unfold serve, import_team, try_except.
  step. rewrite Htext.
  step. rewrite Hroster.
  step. rewrite Herr. cbn [reader_error].
  unfold bind at 1. now rewrite create_document_down by exact Hdown.
Qed.

(** C6: the storage failure of POST /api/team/import. When the store does
    not answer, every other handler that reaches it answers 500
    (create_template, create_tier, checkout, list_templates, update_status
    and, through the framework, get_order), but import_team, given a roster
    file that is read without error, answers 400 with the detail of an
    invalid CSV. *)
Theorem import_team_storage_failure_is_400 :
  forall (s : Store) (team_name sport : str) (content : bytes) (text : str)
         (roster : list TeamRosterEntry),
    available s = false ->
    decode_utf8 content = inr text ->
    read_roster (fst (Csv.DictReader text)) [] = inr roster ->
    snd (Csv.DictReader text) = None ->
    let storage_error := (Error 500 (DetailStr StorageError), touch s) in
    serve (import_team team_name sport content) s
    = (Error 400 (DetailInvalidCSV StorageError), touch s) /\
    (forall t, serve (create_template t) s = storage_error) /\
    (forall t, serve (create_tier t) s = storage_error) /\
    (forall req, serve (checkout req) s = storage_error) /\
    serve list_templates s = storage_error /\
    (forall order_id oid payload,
       ObjectId.from_str order_id = Some oid ->
       serve (update_status order_id payload) s = storage_error) /\
    (forall order_id oid,
       ObjectId.from_str order_id = Some oid ->
       serve (get_order order_id) s = (internal_server_error, touch s)).
Proof.
  intros s team_name sport content text roster Hdown Htext Hroster Herr storage_error.
  split; [now apply (import_team_down s team_name sport content text roster)|].
  unfold storage_error.
  split; [|split; [|split; [|split; [|split]]]].
  - intros t. unfold serve, create_template, try_except, bind at 1.
    now rewrite create_document_down by exact Hdown.
  - intros t. unfold serve, create_tier, try_except, bind at 1.
    now rewrite create_document_down by exact Hdown.
  - intros req. unfold serve, checkout, try_except, resolve_tier, find_one_lte_desc.
    do 2 step. now rewrite (access_down _ Hdown).
  - unfold serve, list_templates, try_except, get_documents, find.
    do 2 step. now rewrite (access_down _ Hdown).
  - intros order_id oid payload Hid.
    unfold serve, update_status; rewrite (from_str_is_valid _ _ Hid); cbn [negb].
    unfold try_except, update_one_set. do 2 step. now rewrite (access_down _ Hdown).
  - intros order_id oid Hid.
    unfold serve, get_order; rewrite (from_str_is_valid _ _ Hid); cbn [negb].
    unfold find_one_by_id. do 2 step. now rewrite (access_down _ Hdown).
Qed.

Lemma import_team_storage_failure_is_400_witness :
  let storage_error := (Error 500 (DetailStr StorageError), touch unavailable_store) in
  serve (import_team (u "Lions") (u "cricket") roster_of_one) unavailable_store
  = (Error 400 (DetailInvalidCSV StorageError), touch unavailable_store) /\
  (forall t, serve (create_template t) unavailable_store = storage_error) /\
  (forall t, serve (create_tier t) unavailable_store = storage_error) /\
  (forall req, serve (checkout req) unavailable_store = storage_error) /\
  serve list_templates unavailable_store = storage_error /\
  (forall order_id oid payload,
     ObjectId.from_str order_id = Some oid ->
     serve (update_status order_id payload) unavailable_store = storage_error) /\
  (forall order_id oid,
     ObjectId.from_str order_id = Some oid ->
     serve (get_order order_id) unavailable_store
     = (internal_server_error, touch unavailable_store)).
Proof.
  exact (import_team_storage_failure_is_400 unavailable_store (u "Lions") (u "cricket")
           roster_of_one
           (u ("name,number,size" ++ line_feed ++ "Asha,7,xl" ++ line_feed))
           [mkTeamRosterEntry (u "Asha") (u "7") Size.XL]
           eq_refl eq_refl eq_refl eq_refl).
Defined.

(* ------------------------------------------------------------------ *)
(** * Further properties of the handlers *)
(* ------------------------------------------------------------------ *)

(** ** Identifiers as strings *)

Lemma hex_digit_char (d : N) : (d < 16)%N -> ObjectId.hex_digit (ObjectId.hex_char d) = Some d.
Proof.
  intros H.
  assert (E : (d = 0 \/ d = 1 \/ d = 2 \/ d = 3 \/ d = 4 \/ d = 5 \/ d = 6 \/ d = 7 \/
               d = 8 \/ d = 9 \/ d = 10 \/ d = 11 \/ d = 12 \/ d = 13 \/ d = 14 \/ d = 15)%N)
    by lia.
  repeat (destruct E as [->|E]; [reflexivity|]). now subst.
Qed.

Lemma hex_digits_length (n : nat) (o : N) (acc : str) :
  List.length (ObjectId.hex_digits n o acc) = (n + List.length acc)%nat.
Proof.
  revert o acc; induction n as [|n IH]; intros o acc; simpl; [reflexivity|].
  rewrite IH; simpl; lia.
Qed.

Lemma is_space_hex_char (d : N) : (d < 16)%N -> ObjectId.is_space (ObjectId.hex_char d) = false.
Proof.
  intros H.
  assert (E : (d = 0 \/ d = 1 \/ d = 2 \/ d = 3 \/ d = 4 \/ d = 5 \/ d = 6 \/ d = 7 \/
               d = 8 \/ d = 9 \/ d = 10 \/ d = 11 \/ d = 12 \/ d = 13 \/ d = 14 \/ d = 15)%N)
    by lia.
  repeat (destruct E as [->|E]; [reflexivity|]). now subst.
Qed.

(** The digits of a number, two for each byte, are read back as its
    bytes, most significant first. *)
Lemma fromhex_hex_digits (k : nat) (o : N) (acc : str) (bs : list N) :
  ObjectId.fromhex acc = Some bs ->
  exists hd,
    ObjectId.fromhex (ObjectId.hex_digits (2 * k) o acc) = Some (hd ++ bs) /\
    List.length hd = k /\
    forall a, List.fold_left (fun acc b => (acc * 256 + b)%N) hd a
              = (a * 256 ^ N.of_nat k + o mod 256 ^ N.of_nat k)%N.
Proof.
  revert o acc bs; induction k as [|k IH]; intros o acc bs Hacc.
  - exists []. repeat split; [exact Hacc|].
    intros a. cbn [List.fold_left N.of_nat]. rewrite N.pow_0_r, N.mod_1_r. lia.
  - replace (2 * S k)%nat with (S (S (2 * k))) by lia.
    cbn [ObjectId.hex_digits].
    set (c2 := ObjectId.hex_char (o mod 16)).
    set (c1 := ObjectId.hex_char ((o / 16) mod 16)).
    assert (Hb : ObjectId.fromhex (c1 :: c2 :: acc)
                 = Some ((((o / 16) mod 16) * 16 + o mod 16)%N :: bs)).
    { cbn [ObjectId.fromhex]. unfold c1, c2.
      rewrite is_space_hex_char by (apply N.mod_lt; discriminate).
      rewrite !hex_digit_char by (apply N.mod_lt; discriminate).
      now rewrite Hacc. }
    destruct (IH (o / 16 / 16)%N _ _ Hb) as (hd & Hhd & Hlen & Hval).
    exists (hd ++ [(((o / 16) mod 16) * 16 + o mod 16)%N]).
    rewrite <- app_assoc. split; [exact Hhd|]. split.
    + rewrite length_app, Hlen. cbn [List.length]. lia.
    + intros a. rewrite fold_left_app, Hval. cbn [List.fold_left].
      rewrite Nat2N.inj_succ, N.pow_succ_r'.
      rewrite (N.Div0.mod_mul_r o 256 (256 ^ N.of_nat k)).
      rewrite N.Div0.div_div.
      change (16 * 16)%N with 256%N.
      assert (E : (o mod 256 = ((o / 16) mod 16) * 16 + o mod 16)%N).
      { change 256%N with (16 * 16)%N. rewrite (N.Div0.mod_mul_r o 16 16). lia. }
      rewrite E. lia.
Qed.

(** An identifier is read back from its string. *)
Lemma from_str_to_str (o : N) :
  (o < two_to_96)%N -> ObjectId.from_str (ObjectId.to_str o) = Some o.
Proof.
  intros H. unfold ObjectId.from_str, ObjectId.binary, ObjectId.to_str.
  rewrite hex_digits_length. cbn [Nat.add List.length Nat.eqb].
  destruct (fromhex_hex_digits 12 o [] [] eq_refl) as (hd & Hhd & Hlen & Hval).
  change (2 * 12)%nat with 24%nat in Hhd. rewrite Hhd, app_nil_r, Hlen.
  cbn [Nat.eqb]. unfold ObjectId.number. rewrite Hval.
  f_equal. rewrite N.mul_0_l, N.add_0_l. apply N.mod_small. exact H.
Qed.

(** ** Dicts, further *)

Lemma dict_get_remove_same (k : str) (d : dict) : dict_get k (dict_remove k d) = None.
Proof.
  induction d as [|[k' v] d IH]; simpl; [reflexivity|].
  destruct (str_eqb k k') eqn:E; [exact IH|]. simpl. now rewrite E.
Qed.

Lemma dict_get_remove_other (k k' : str) (d : dict) :
  str_eqb k' k = false -> dict_get k' (dict_remove k d) = dict_get k' d.
Proof.
  intros Hk; induction d as [|[k0 v] d IH]; simpl; [reflexivity|].
  destruct (str_eqb k k0) eqn:E; simpl.
  - apply str_eqb_eq in E; subst k0. now rewrite Hk.
  - now rewrite IH.
Qed.

Lemma str_eqb_neq (a b : str) : a <> b -> str_eqb a b = false.
Proof.
  intros H. destruct (str_eqb a b) eqn:E; [|reflexivity].
  now apply str_eqb_eq in E.
Qed.

(** ** Rendering stored documents *)

Lemma json_ok_cons (k : str) (v : value) (d : dict) :
  json_ok (VDict ((k, v) :: d)) = (json_ok v && json_ok (VDict d))%bool.
Proof. reflexivity. Qed.

Lemma json_ok_app (d d' : dict) :
  json_ok (VDict (d ++ d')) = (json_ok (VDict d) && json_ok (VDict d'))%bool.
Proof.
  induction d as [|[k v] d IH]; [reflexivity|].
  change (((k, v) :: d) ++ d') with ((k, v) :: (d ++ d')).
  now rewrite !json_ok_cons, IH, andb_assoc.
Qed.

Lemma json_ok_set (k : str) (v : value) (d : dict) :
  json_ok (VDict d) = true -> json_ok v = true ->
  json_ok (VDict (dict_set k v d)) = true.
Proof.
  intros Hd Hv; induction d as [|[k0 v0] d IH]; cbn [dict_set].
  - now rewrite json_ok_cons, Hv.
  - rewrite json_ok_cons in Hd. apply andb_true_iff in Hd as [H0 Hd].
    destruct (str_eqb k k0); rewrite json_ok_cons.
    + now rewrite Hv.
    + now rewrite H0, IH.
Qed.

Lemma json_ok_remove_set (k k' : str) (v : value) (d : dict) :
  str_eqb k k' = false ->
  json_ok (VDict (dict_remove k d)) = true -> json_ok v = true ->
  json_ok (VDict (dict_remove k (dict_set k' v d))) = true.
Proof.
  intros Hk Hd Hv; induction d as [|[k0 v0] d IH]; cbn [dict_set dict_remove].
  - rewrite Hk. now rewrite json_ok_cons, Hv.
  - cbn [dict_remove] in Hd.
    destruct (str_eqb k' k0) eqn:E'; cbn [dict_remove].
    + apply str_eqb_eq in E'; subst k0. rewrite Hk in *.
      rewrite json_ok_cons in *. apply andb_true_iff in Hd as [_ Hd]. now rewrite Hv.
    + destruct (str_eqb k k0); [now apply IH|].
      rewrite json_ok_cons in *. apply andb_true_iff in Hd as [H0 Hd].
      now rewrite H0, IH.
Qed.

(** ** Looking an order up *)

Lemma pop_id_found (oid : N) (docs : list dict) (d : dict) :
  List.find (has_id oid) docs = Some d -> pop_id d = ObjectId.to_str oid.
Proof.
  intros H. apply find_some in H as [_ H].
  unfold has_id in H. unfold pop_id.
  destruct (dict_get _id d) as [[]|]; try discriminate.
  apply N.eqb_eq in H. now subst.
Qed.

(** What [get_order] answers when the order is there. *)
Lemma get_order_run (s : Store) (order_id : str) (oid : N) (d : dict) :
  available s = true ->
  ObjectId.from_str order_id = Some oid ->
  stored_order s oid = Some d ->
  json_ok (VDict (dict_remove _id d)) = true ->
  serve (get_order order_id) s
  = (Ok (VDict (dict_set (u "id") (VStr (ObjectId.to_str oid)) (dict_remove _id d))),
     touch s).
Proof.
  intros Hup Hid Hd Hjson.
  unfold serve, get_order; rewrite (from_str_is_valid _ _ Hid), Hid; cbn [negb].
  unfold find_one_by_id, bind. rewrite (access_up _ Hup).
  unfold read at 1; cbn [touch data].
  change (has_oid (Some oid)) with (has_id oid).
  unfold stored_order, orders in Hd. unfold ret at 1. rewrite Hd.
  rewrite (pop_id_found _ _ _ Hd).
  unfold ret; cbn [respond]. now rewrite json_ok_set.
Qed.

(** X1. update_status answers 400 to an order_id that is not a valid
    identifier (24 characters that bytes.fromhex reads) before anything
    is sent to the store, which stays exactly as it was, answering or
    not. *)
Theorem update_status_rejects_malformed_id :
  forall (s : Store) (order_id : str) (payload : UpdateStatus),
    ObjectId.is_valid order_id = false ->
    serve (update_status order_id payload) s
    = (Error 400 (Detail (u "Invalid order id")), s).
Proof.
  intros s order_id payload H.
  unfold serve, update_status. now rewrite H.
Qed.

Lemma update_status_rejects_malformed_id_witness :
  serve (update_status (u "not-an-object-id") (mkUpdateStatus (u "Shipped"))) unavailable_store
  = (Error 400 (Detail (u "Invalid order id")), unavailable_store).
Proof.
  exact (update_status_rejects_malformed_id unavailable_store (u "not-an-object-id")
           (mkUpdateStatus (u "Shipped")) eq_refl).
Defined.

(** X2. An order that is there is answered with its fields as stored,
    the identifier moved from _id to id (as a string): the body has no
    _id, has the printed identifier under id, and every other key holds
    what the stored document holds. *)
Theorem get_order_found :
  forall (s : Store) (order_id : str) (oid : N) (d : dict),
    available s = true ->
    ObjectId.from_str order_id = Some oid ->
    stored_order s oid = Some d ->
    json_ok (VDict (dict_remove _id d)) = true ->
    exists body : dict,
      serve (get_order order_id) s = (Ok (VDict body), touch s) /\
      dict_get (u "id") body = Some (VStr (ObjectId.to_str oid)) /\
      dict_get _id body = None /\
      forall k, k <> u "id" -> k <> _id -> dict_get k body = dict_get k d.
Proof.
  intros s order_id oid d Hup Hid Hd Hjson.
  eexists; split; [exact (get_order_run s order_id oid d Hup Hid Hd Hjson)|].
  split; [apply dict_get_set_same|]. split.
  - rewrite dict_get_set_other by reflexivity. apply dict_get_remove_same.
  - intros k Hk1 Hk2.
    rewrite dict_get_set_other by (now apply str_eqb_neq).
    apply dict_get_remove_other. now apply str_eqb_neq.
Qed.

Lemma get_order_found_witness :
  exists body : dict,
    serve (get_order (u "000000000000000000000007")) one_order_store
    = (Ok (VDict body), touch one_order_store) /\
    dict_get (u "id") body = Some (VStr (ObjectId.to_str 7)) /\
    dict_get _id body = None /\
    forall k, k <> u "id" -> k <> _id -> dict_get k body = dict_get k sample_order.
Proof.
  exact (get_order_found one_order_store (u "000000000000000000000007") 7 sample_order
           eq_refl eq_refl eq_refl eq_refl).
Defined.

(** X3. After update_status has set a status on an order that is there,
    get_order answers that order with the new status (whatever the string)
    and with every other field as it was. *)
Theorem update_status_then_get_order :
  forall (s : Store) (order_id : str) (oid : N) (d : dict) (status : str),
    available s = true ->
    ObjectId.from_str order_id = Some oid ->
    stored_order s oid = Some d ->
    json_ok (VDict (dict_remove _id d)) = true ->
    exists body : dict,
      fst (serve (get_order order_id)
             (after (update_status order_id (mkUpdateStatus status)) s))
      = Ok (VDict body) /\
      dict_get (u "status") body = Some (VStr status) /\
      forall k, k <> u "status" -> k <> u "id" -> k <> _id ->
                dict_get k body = dict_get k d.
Proof.
  intros s order_id oid d status Hup Hid Hd Hjson.
  unfold after. rewrite (update_status_run s order_id oid status Hup Hid). cbn [snd].
  set (s1 := mkStore true _ _ _).
  assert (Hd1 : stored_order s1 oid = Some (dict_set (u "status") (VStr status) d)).
  { unfold stored_order, orders, s1; cbn [data]. rewrite coll_set_coll.
    now apply find_set_first. }
  assert (Hj1 : json_ok (VDict (dict_remove _id (dict_set (u "status") (VStr status) d))) = true)
    by now apply json_ok_remove_set.
  rewrite (get_order_run s1 order_id oid _ eq_refl Hid Hd1 Hj1). cbn [fst].
  eexists; split; [reflexivity|]. split.
  - rewrite dict_get_set_other by reflexivity.
    rewrite dict_get_remove_other by reflexivity. apply dict_get_set_same.
  - intros k Hk1 Hk2 Hk3.
    rewrite dict_get_set_other by (now apply str_eqb_neq).
    rewrite dict_get_remove_other by (now apply str_eqb_neq).
    apply dict_get_set_other. now apply str_eqb_neq.
Qed.

Lemma update_status_then_get_order_witness :
  exists body : dict,
    fst (serve (get_order (u "000000000000000000000007"))
           (after (update_status (u "000000000000000000000007")
                     (mkUpdateStatus (u "QC"))) one_order_store))
    = Ok (VDict body) /\
    dict_get (u "status") body = Some (VStr (u "QC")) /\
    forall k, k <> u "status" -> k <> u "id" -> k <> _id ->
              dict_get k body = dict_get k sample_order.
Proof.
  exact (update_status_then_get_order one_order_store (u "000000000000000000000007") 7
           sample_order (u "QC") eq_refl eq_refl eq_refl eq_refl).
Defined.

(** ** Checkout, step by step *)

Lemma find_app_new (o : N) (docs : list dict) (d : dict) :
  List.find (has_id o) docs = None ->
  List.find (has_id o) (docs ++ [stored o d]) = Some (stored o d).
Proof.
  induction docs as [|d0 docs IH]; simpl.
  - intros _. unfold has_id, stored; cbn. now rewrite N.eqb_refl.
  - destruct (has_id o d0); [discriminate|exact IH].
Qed.

(** [checkout] up to the order: the store then holds the order. *)
Lemma checkout_order_written (s : Store) (req : CheckoutRequest) (base_price q : float)
  (tier : option str) (k : float -> str -> M value) :
  available s = true ->
  int64 (req_quantity req) = true ->
  encodable (VDict (JerseyDesign_dump (req_design req))) = true ->
  let tier_doc := first_lte_desc min_quantity_key (req_quantity req) (tiers s) in
  tier_base_price tier_doc = inr base_price ->
  float_of_int (req_quantity req) = inr q ->
  let amount := round2 (base_price * q) in
  (1 <= req_quantity req)%Z ->
  ge0 amount = true ->
  validate_optional_str (tier_name_of tier_doc) = inr tier ->
  (tier_doc' <- resolve_tier (req_quantity req) ;;
   base_price' <- lift (tier_base_price tier_doc') ;;
   amount' <- lift (compute_amount base_price' (req_quantity req)) ;;
   order <- lift (JerseyOrder_init
                    (req_customer_name req) (req_customer_email req)
                    (req_customer_phone req) (req_shipping_address req)
                    (req_team_id req) (req_template_id req) (req_design req)
                    (req_quantity req) (tier_name_of tier_doc') amount') ;;
   order_id <- create_document jerseyorder (JerseyOrder_dump order) ;;
   k amount' order_id) s
  = k amount (ObjectId.to_str (next_id s))
      (with_order s (JerseyOrder_dump (placed_order req tier amount))).
Proof.
  intros Hup H64 Hdesign tier_doc Hbp Hq amount Hq1 Hge Htier.
  unfold bind at 1. rewrite (resolve_tier_run _ _ Hup H64). fold tier_doc.
  step. rewrite Hbp.
  step; unfold compute_amount. rewrite Hq. fold amount.
  step; unfold JerseyOrder_init. rewrite Htier.
  apply Z.leb_le in Hq1. rewrite Hq1, Hge. cbn [andb].
  unfold bind at 1. rewrite create_document_run;
    [|exact Hup|rewrite JerseyOrder_dump_no_id; now apply encode_error_order].
  rewrite JerseyOrder_dump_no_id. reflexivity.
Qed.

(** X4. A checkout whose payment method is none of upi, card, netbanking
    is answered 500 after the order has been written: the order stays in
    the store, without a payment intent.  (The request is one that
    reaches the payment step: its quantity fits eight bytes, its design
    is one the driver encodes, the store answers and its tiers hold
    no array under min_quantity.) *)
Theorem checkout_bad_method_leaves_order :
  forall (s : Store) (req : CheckoutRequest) (base_price q : float) (tier : option str),
    available s = true ->
    scalar_tiers s = true ->
    int64 (req_quantity req) = true ->
    encodable (VDict (JerseyDesign_dump (req_design req))) = true ->
    let tier_doc := first_lte_desc min_quantity_key (req_quantity req) (tiers s) in
    tier_base_price tier_doc = inr base_price ->
    float_of_int (req_quantity req) = inr q ->
    let amount := round2 (base_price * q) in
    (1 <= req_quantity req)%Z ->
    ge0 amount = true ->
    validate_optional_str (tier_name_of tier_doc) = inr tier ->
    find_literal Method_str all_methods (req_method req) = None ->
    let (r, s') := serve (checkout req) s in
    r = Error 500 (DetailStr ValidationError) /\
    orders s' = orders s ++
      [stored (next_id s) (JerseyOrder_dump (placed_order req tier amount))] /\
    payments s' = payments s.
Proof.
  intros s req base_price q tier Hup _ H64 Hdesign tier_doc Hbp Hq amount Hq1 Hge Htier Hm.
  unfold serve.
  change (checkout req) with (checkout_with req (checkout_payment req)).
  unfold checkout_with, try_except.
  rewrite (checkout_order_written s req base_price q tier (checkout_payment req)
             Hup H64 Hdesign Hbp Hq Hq1 Hge Htier).
  fold amount. unfold checkout_payment.
  step; unfold PaymentIntent_init, validate_literal. rewrite Hm.
  cbn [http_500 raise respond].
  unfold with_order, orders, payments; cbn [data].
  rewrite coll_set_coll. repeat split.
Qed.

Lemma checkout_bad_method_leaves_order_witness :
  let req := order_request 15 "cash" in
  let (r, s') := serve (checkout req) three_tiers in
  r = Error 500 (DetailStr ValidationError) /\
  orders s' = orders three_tiers ++
    [stored (next_id three_tiers)
       (JerseyOrder_dump (placed_order req (Some (u "Pro")) (round2 (899 * 15))))] /\
  payments s' = payments three_tiers.
Proof.
  exact (checkout_bad_method_leaves_order three_tiers (order_request 15 "cash")
           899%float 15%float (Some (u "Pro"))
           eq_refl eq_refl eq_refl eq_refl eq_refl eq_refl ltac:(cbn; lia) eq_refl
           eq_refl eq_refl).
Defined.

(** What [checkout] leaves when every step succeeds. *)
Lemma checkout_store (s : Store) (req : CheckoutRequest) (base_price q : float)
  (tier : option str) (m : Method) :
  available s = true ->
  int64 (req_quantity req) = true ->
  encodable (VDict (JerseyDesign_dump (req_design req))) = true ->
  let tier_doc := first_lte_desc min_quantity_key (req_quantity req) (tiers s) in
  tier_base_price tier_doc = inr base_price ->
  float_of_int (req_quantity req) = inr q ->
  let amount := round2 (base_price * q) in
  (1 <= req_quantity req)%Z ->
  ge0 amount = true ->
  is_finite amount = true ->
  validate_optional_str (tier_name_of tier_doc) = inr tier ->
  find_literal Method_str all_methods (req_method req) = Some m ->
  let order_id := ObjectId.to_str (next_id s) in
  let payment_id := ObjectId.to_str (N.succ (next_id s)) in
  serve (checkout req) s
  = (Ok (checkout_body order_id payment_id amount),
     with_payment (with_order s (JerseyOrder_dump (placed_order req tier amount)))
       (PaymentIntent_dump (intent_for order_id amount m))).
Proof.
  intros Hup H64 Hdesign tier_doc Hbp Hq amount Hq1 Hge Hfin Htier Hm order_id payment_id.
  unfold serve.
  change (checkout req) with (checkout_with req (checkout_payment req)).
  unfold checkout_with, try_except.
  rewrite (checkout_order_written s req base_price q tier (checkout_payment req)
             Hup H64 Hdesign Hbp Hq Hq1 Hge Htier).
  fold amount order_id. unfold checkout_payment.
  step; unfold PaymentIntent_init, validate_literal. rewrite Hm, Hge.
  unfold bind at 1. rewrite create_document_run;
    [|reflexivity|rewrite PaymentIntent_dump_no_id; apply encode_error_payment].
  rewrite PaymentIntent_dump_no_id.
  unfold ret; cbn [respond next_id with_order].
  fold payment_id. fold (checkout_body order_id payment_id amount).
  rewrite (json_ok_checkout_body order_id payment_id amount Hfin).
  reflexivity.
Qed.

Lemma json_ok_optional_str (o : option str) : json_ok (dump_optional_str o) = true.
Proof. now destruct o. Qed.

Lemma json_ok_order (o : JerseyOrder) :
  json_ok (VDict (JerseyDesign_dump (design o))) = true ->
  is_finite (amount o) = true ->
  json_ok (VDict (JerseyOrder_dump o)) = true.
Proof.
  intros Hd Ha. unfold JerseyOrder_dump.
  rewrite !json_ok_cons, !json_ok_optional_str, Hd.
  cbn [json_ok]. now rewrite Ha.
Qed.

(** X5. The identifier a successful checkout answers as order_id leads
    get_order to the order just stored: the fields of the request, the
    resolved tier name, the computed amount, payment_status pending and
    status Confirmed, with the identifier under id.  (The checkout is one
    that succeeds: its quantity fits eight bytes, its design is one the
    driver encodes and JSON renders, the store answers and its tiers hold
    no array under min_quantity.) *)
Theorem checkout_then_get_order :
  forall (s : Store) (req : CheckoutRequest) (base_price q : float)
         (tier : option str) (m : Method),
    available s = true ->
    scalar_tiers s = true ->
    int64 (req_quantity req) = true ->
    encodable (VDict (JerseyDesign_dump (req_design req))) = true ->
    let tier_doc := first_lte_desc min_quantity_key (req_quantity req) (tiers s) in
    tier_base_price tier_doc = inr base_price ->
    float_of_int (req_quantity req) = inr q ->
    let amount := round2 (base_price * q) in
    (1 <= req_quantity req)%Z ->
    ge0 amount = true ->
    is_finite amount = true ->
    validate_optional_str (tier_name_of tier_doc) = inr tier ->
    find_literal Method_str all_methods (req_method req) = Some m ->
    json_ok (VDict (JerseyDesign_dump (req_design req))) = true ->
    (next_id s < two_to_96)%N ->
    stored_order s (next_id s) = None ->
    let order_id := ObjectId.to_str (next_id s) in
    let payment_id := ObjectId.to_str (N.succ (next_id s)) in
    fst (serve (checkout req) s) = Ok (checkout_body order_id payment_id amount) /\
    fst (serve (get_order order_id) (after (checkout req) s))
    = Ok (order_json (placed_order req tier amount) order_id).
Proof.
  intros s req base_price q tier m Hup _ H64 Henc tier_doc Hbp Hq amount Hq1 Hge Hfin
    Htier Hm Hdesign Hbound Hfresh order_id payment_id.
  unfold after.
  rewrite (checkout_store s req base_price q tier m Hup H64 Henc Hbp Hq Hq1 Hge Hfin
             Htier Hm).
  fold amount order_id payment_id. cbn [fst snd].
  split; [reflexivity|].
  set (order := JerseyOrder_dump (placed_order req tier amount)).
  set (s2 := with_payment _ _).
  assert (Hd : stored_order s2 (next_id s) = Some (stored (next_id s) order)).
  { unfold stored_order, orders, s2, with_payment, with_order; cbn [data].
    replace (coll jerseyorder (set_coll paymentintent _ _))
      with (orders s ++ [stored (next_id s) order])
      by (unfold orders; now destruct (data s)).
    now apply find_app_new. }
  assert (Hj : json_ok (VDict (dict_remove _id (stored (next_id s) order))) = true).
  { change (dict_remove _id (stored (next_id s) order)) with order.
    now apply json_ok_order. }
  rewrite (get_order_run s2 order_id (next_id s) _ eq_refl
             (from_str_to_str _ Hbound) Hd Hj).
  reflexivity.
Qed.

Lemma checkout_then_get_order_witness :
  let req := order_request 15 "upi" in
  fst (serve (checkout req) three_tiers)
  = Ok (checkout_body (ObjectId.to_str 3) (ObjectId.to_str 4) (round2 (899 * 15))) /\
  fst (serve (get_order (ObjectId.to_str 3)) (after (checkout req) three_tiers))
  = Ok (order_json (placed_order req (Some (u "Pro")) (round2 (899 * 15)))
          (ObjectId.to_str 3)).
Proof.
  exact (checkout_then_get_order three_tiers (order_request 15 "upi")
           899%float 15%float (Some (u "Pro")) upi
           eq_refl eq_refl eq_refl eq_refl eq_refl eq_refl ltac:(cbn; lia) eq_refl
           eq_refl eq_refl eq_refl eq_refl eq_refl eq_refl).
Defined.

(** ** The roster loop, row by row *)

Lemma read_roster_cons (r : Csv.row) (rows : list Csv.row) (acc : list TeamRosterEntry) :
  read_roster (r :: rows) acc =
  match read_roster [r] acc with
  | inl e => inl e
  | inr acc' => read_roster rows acc'
  end.
Proof.
  cbn [read_roster].
  destruct (Csv.row_is_empty r); [reflexivity|].
  destruct (get_strip r "name" EmptyString); [reflexivity|].
  destruct (get_strip r "size" "M"); [reflexivity|].
  now destruct (TeamRosterEntry_init _ _ _).
Qed.

(** A record of three cells or more under the header name,number,size. *)
Lemma record_cells (n k z : str) (tl : list str) :
  let row := Csv.make_row roster_header (n :: k :: z :: tl) in
  Csv.row_is_empty row = false /\
  get_strip row "name" EmptyString = inr (strip n) /\
  get_str_strip row "number" EmptyString = strip k /\
  get_strip row "size" "M" = inr (strip z).
Proof. repeat split. Qed.

Lemma read_roster_record (n k z : str) (tl : list str) (acc : list TeamRosterEntry) :
  read_roster [Csv.make_row roster_header (n :: k :: z :: tl)] acc =
  match size_of_cell z with
  | Some sz => inr (acc ++ [mkTeamRosterEntry (strip n) (strip k) sz])
  | None => inl ValidationError
  end.
Proof.
  destruct (record_cells n k z tl) as (H0 & Hn & Hk & Hz).
  cbn [read_roster]. rewrite H0, Hn, Hk, Hz.
  unfold size_of_cell, TeamRosterEntry_init, validate_literal.
  now destruct (find_literal Size_str all_sizes _).
Qed.

(** A record of one or two cells under that header: the cell of size is
    missing, and [None] has no [strip]. *)
Lemma read_roster_short (rec : list str) (acc : list TeamRosterEntry) :
  List.length rec = 1%nat \/ List.length rec = 2%nat ->
  read_roster [Csv.make_row roster_header rec] acc = inl AttributeError.
Proof.
  intros [H|H].
  - destruct rec as [|x [|y rec]]; try discriminate. reflexivity.
  - destruct rec as [|x [|y [|z rec]]]; try discriminate. reflexivity.
Qed.

Lemma read_roster_fails (rows : list Csv.row) (r : Csv.row) :
  In r rows ->
  (forall acc, exists e, read_roster [r] acc = inl e) ->
  forall acc, exists e, read_roster rows acc = inl e.
Proof.
  intros Hin Hr. induction rows as [|r0 rows IH]; [destruct Hin|].
  intros acc. rewrite read_roster_cons.
  destruct (read_roster [r0] acc) as [e|acc'] eqn:E; [now exists e|].
  destruct Hin as [->|Hin]; [|now apply IH].
  destruct (Hr acc) as (e & He). congruence.
Qed.

Lemma read_roster_entries (header : list str) (recs : list (list str))
  (roster : list TeamRosterEntry) :
  header = roster_header ->
  Forall2 is_entry_of recs roster ->
  forall acc, read_roster (List.map (Csv.make_row header) recs) acc = inr (acc ++ roster).
Proof.
  intros -> H. induction H as [|rec e recs roster (n & k & z & tl & sz & -> & Hsz & ->) _ IH];
    intros acc; cbn [List.map].
  - now rewrite app_nil_r.
  - rewrite read_roster_cons, read_roster_record, Hsz, IH.
    now rewrite <- app_assoc.
Qed.

(** What [import_team] answers and leaves, from what the loop gives. *)
Lemma import_team_run (s : Store) (team_name sport : str) (content : bytes) (text : str) :
  decode_utf8 content = inr text ->
  serve (import_team team_name sport content) s =
  match read_roster (fst (Csv.DictReader text)) [] with
  | inl e => (Error 400 (DetailInvalidCSV e), s)
  | inr roster =>
      match snd (Csv.DictReader text) with
      | Some e => (Error 400 (DetailInvalidCSV e), s)
      | None =>
          if available s
          then (Ok (import_body (ObjectId.to_str (next_id s)) roster),
                mkStore true
                  (set_coll Database.team
                     (teams s ++ [stored (next_id s)
                                    (Team_dump (Team_init team_name sport roster))])
                     (data s))
                  (N.succ (next_id s)) (S (accesses s)))
          else (Error 400 (DetailInvalidCSV StorageError), touch s)
      end
  end.
Proof.
  intros Htext. unfold serve, import_team, try_except.
  step. rewrite Htext.
  step. destruct (read_roster (fst (Csv.DictReader text)) []) as [e|roster]; [reflexivity|].
  step. destruct (snd (Csv.DictReader text)) as [e|]; [reflexivity|]. cbn [reader_error].
  unfold bind at 1. destruct (available s) eqn:Hup.
  - rewrite create_document_run;
      [|exact Hup|rewrite Team_dump_no_id; apply encode_error_team].
    now rewrite Team_dump_no_id.
  - now rewrite create_document_down by exact Hup.
Qed.


(** X7. A well-formed roster is imported whole. When the file decodes, its
    header is name,number,size, the reader raises nothing, every record
    that is not a blank line has at least three cells and its third cell
    spells a size (in any letter case, blank for M), and the store
    answers, import_team answers 200 with the count of those records and
    stores the Team whose roster has, in the order of the file, one entry
    a record: name and number stripped, the size as read; cells beyond
    the third are ignored. *)
Theorem import_team_well_formed :
  forall (s : Store) (team_name sport : str) (content : bytes) (text : str)
         (recs : list (list str)) (roster : list TeamRosterEntry),
    available s = true ->
    decode_utf8 content = inr text ->
    Csv.reader_records text = (roster_header :: recs, None) ->
    Forall2 is_entry_of (data_records recs) roster ->
    let (r, s') := serve (import_team team_name sport content) s in
    r = Ok (import_body (ObjectId.to_str (next_id s)) roster) /\
    List.length roster = List.length (data_records recs) /\
    teams s' = teams s ++
      [stored (next_id s) (Team_dump (Team_init team_name sport roster))].
Proof.
  intros s team_name sport content text recs roster Hup Htext Hrecs Hall.
  rewrite (import_team_run s team_name sport content text Htext).
  rewrite (DictReader_rows text roster_header recs None Hrecs). cbn [fst snd].
  rewrite (read_roster_entries roster_header _ roster eq_refl Hall []).
  cbn [app]. rewrite Hup.
  split; [reflexivity|]. split.
  - symmetry. exact (Forall2_length Hall).
  - unfold teams; cbn [data]. now rewrite coll_set_coll.
Qed.

Lemma import_team_well_formed_witness :
  let roster := [mkTeamRosterEntry (u "Asha") (u "7") Size.XL;
                 mkTeamRosterEntry (u "Bela") (u "10") Size.M] in
  let (r, s') := serve (import_team (u "Lions") (u "cricket") roster_of_two) empty_store in
  r = Ok (import_body (ObjectId.to_str (next_id empty_store)) roster) /\
  List.length roster
  = List.length (data_records [[u " Asha "; u " 7 "; u "xl"]; [];
                               [u "Bela"; u "10"; []; u "captain"]]) /\
  teams s' = teams empty_store ++
    [stored (next_id empty_store) (Team_dump (Team_init (u "Lions") (u "cricket") roster))].
Proof.
  refine (import_team_well_formed empty_store (u "Lions") (u "cricket") roster_of_two
            (u ("name,number,size" ++ line_feed ++ " Asha , 7 ,xl" ++ line_feed
                ++ line_feed ++ "Bela,10,,captain" ++ line_feed))
            [[u " Asha "; u " 7 "; u "xl"]; []; [u "Bela"; u "10"; []; u "captain"]]
            [mkTeamRosterEntry (u "Asha") (u "7") Size.XL;
             mkTeamRosterEntry (u "Bela") (u "10") Size.M]
            eq_refl eq_refl eq_refl _).
  repeat constructor.
  - exists (u " Asha "), (u " 7 "), (u "xl"), [], Size.XL. repeat split.
  - exists (u "Bela"), (u "10"), [], [u "captain"], Size.M. repeat split.
Defined.

(** X8. Under the header name,number,size a record of one or two cells
    (a line of spaces is one) leaves the size without a cell, and the
    whole import fails: import_team answers 400 and the store is exactly
    as it was, whatever the other rows hold. *)
Theorem import_team_short_record :
  forall (s : Store) (team_name sport : str) (content : bytes) (text : str)
         (recs : list (list str)) (err : option exn) (rec : list str),
    decode_utf8 content = inr text ->
    Csv.reader_records text = (roster_header :: recs, err) ->
    In rec recs ->
    List.length rec = 1%nat \/ List.length rec = 2%nat ->
    exists e : exn,
      serve (import_team team_name sport content) s = (Error 400 (DetailInvalidCSV e), s).
Proof.
  intros s team_name sport content text recs err rec Htext Hrecs Hin Hlen.
  rewrite (import_team_run s team_name sport content text Htext).
  rewrite (DictReader_rows text roster_header recs err Hrecs). cbn [fst snd].
  destruct (read_roster_fails
              (List.map (Csv.make_row roster_header) (data_records recs))
              (Csv.make_row roster_header rec)) with (acc := @nil TeamRosterEntry)
    as (e & He).
  - apply in_map. apply filter_In. split; [exact Hin|].
    destruct rec; [destruct Hlen; discriminate|reflexivity].
  - intros acc. exists AttributeError. now apply read_roster_short.
  - rewrite He. now exists e.
Qed.

Lemma import_team_short_record_witness :
  exists e : exn,
    serve (import_team (u "Lions") (u "cricket") roster_with_short_row) empty_store
    = (Error 400 (DetailInvalidCSV e), empty_store).
Proof.
  exact (import_team_short_record empty_store (u "Lions") (u "cricket")
           roster_with_short_row
           (u ("name,number,size" ++ line_feed ++ "Asha,7,M" ++ line_feed
               ++ "   " ++ line_feed))
           [[u "Asha"; u "7"; u "M"]; [u "   "]] None [u "   "]
           eq_refl eq_refl (or_intror (or_introl eq_refl)) (or_introl eq_refl)).
Defined.

(** X9. A record whose third cell spells none of XS, S, M, L, XL, XXL
    (after stripping and upper-casing, blank standing for M) fails the
    whole import: import_team answers 400 and the store is exactly as it
    was, the rows before it included. *)
Theorem import_team_invalid_size :
  forall (s : Store) (team_name sport : str) (content : bytes) (text : str)
         (recs : list (list str)) (err : option exn) (n k z : str) (tl : list str),
    decode_utf8 content = inr text ->
    Csv.reader_records text = (roster_header :: recs, err) ->
    In (n :: k :: z :: tl) recs ->
    size_of_cell z = None ->
    exists e : exn,
      serve (import_team team_name sport content) s = (Error 400 (DetailInvalidCSV e), s).
Proof.
  intros s team_name sport content text recs err n k z tl Htext Hrecs Hin Hsize.
  rewrite (import_team_run s team_name sport content text Htext).
  rewrite (DictReader_rows text roster_header recs err Hrecs). cbn [fst snd].
  destruct (read_roster_fails
              (List.map (Csv.make_row roster_header) (data_records recs))
              (Csv.make_row roster_header (n :: k :: z :: tl)))
    with (acc := @nil TeamRosterEntry) as (e & He).
  - apply in_map. apply filter_In. now split.
  - intros acc. exists ValidationError. now rewrite read_roster_record, Hsize.
  - rewrite He. now exists e.
Qed.

Lemma import_team_invalid_size_witness :
  exists e : exn,
    serve (import_team (u "Lions") (u "cricket") roster_with_bad_size) empty_store
    = (Error 400 (DetailInvalidCSV e), empty_store).
Proof.
  exact (import_team_invalid_size empty_store (u "Lions") (u "cricket")
           roster_with_bad_size
           (u ("name,number,size" ++ line_feed ++ "Asha,7,M" ++ line_feed
               ++ "Bela,10,XXXL" ++ line_feed))
           [[u "Asha"; u "7"; u "M"]; [u "Bela"; u "10"; u "XXXL"]] None
           (u "Bela") (u "10") (u "XXXL") []
           eq_refl eq_refl (or_intror (or_introl eq_refl)) eq_refl).
Defined.

Lemma row_get_set_other (k k' : str) (v : option str) (d : list (str * option str)) :
  str_eqb k k' = false -> Csv.row_get k (Csv.row_set k' v d) = Csv.row_get k d.
Proof.
  intros Hk. induction d as [|[k0 v0] d IH]; cbn [Csv.row_set Csv.row_get].
  - now rewrite Hk.
  - destruct (str_eqb k' k0) eqn:E; cbn [Csv.row_get].
    + apply str_eqb_eq in E; subst k0. now rewrite Hk.
    + now rewrite IH.
Qed.

(** A row has the keys of its header only. *)
Lemma row_get_zip_row (k : str) (fieldnames rec : list str) (d : list (str * option str)) :
  ~ In k fieldnames ->
  Csv.row_get k (Csv.zip_row fieldnames rec d) = Csv.row_get k d.
Proof.
  revert rec d. induction fieldnames as [|f fs IH]; intros rec d Hk; [reflexivity|].
  assert (Hf : str_eqb k f = false).
  { apply str_eqb_neq. intros ->. apply Hk. now left. }
  assert (Hfs : ~ In k fs) by (intros H; apply Hk; now right).
  destruct rec as [|c cs]; cbn [Csv.zip_row]; rewrite (IH _ _ Hfs);
    now apply row_get_set_other.
Qed.

(** X10. The size of a roster entry: under the header name,number,size a
    third cell that is empty or only whitespace gives the size M, and a
    cell that spells a size in any letter case, with or without
    whitespace around it, gives that size; under a header without a size
    column, whatever its columns, every record that is not a blank line
    and has a name gives an entry of size M. *)
Theorem roster_size_defaults :
  (forall (n k z : str) (tl : list str) (acc : list TeamRosterEntry),
     strip z = [] ->
     read_roster [Csv.make_row roster_header (n :: k :: z :: tl)] acc
     = inr (acc ++ [mkTeamRosterEntry (strip n) (strip k) Size.M])) /\
  (forall (n k z : str) (tl : list str) (acc : list TeamRosterEntry) (sz : Size.t),
     upper (strip z) = Size_str sz ->
     read_roster [Csv.make_row roster_header (n :: k :: z :: tl)] acc
     = inr (acc ++ [mkTeamRosterEntry (strip n) (strip k) sz])) /\
  (forall (header rec : list str) (acc : list TeamRosterEntry) (name : str),
     ~ In (u "size") header ->
     Csv.is_blank rec = false ->
     let row := Csv.make_row header rec in
     get_strip row "name" EmptyString = inr name ->
     read_roster [row] acc
     = inr (acc ++ [mkTeamRosterEntry name (get_str_strip row "number" EmptyString)
                      Size.M])).
Proof.
  split; [|split].
  - intros n k z tl acc Hz. rewrite read_roster_record.
    unfold size_of_cell. now rewrite Hz.
  - intros n k z tl acc sz Hz. rewrite read_roster_record.
    unfold size_of_cell. rewrite Hz. now destruct sz.
  - intros header rec acc name Hsize Hrec row Hname.
    assert (Hz : get_strip row "size" "M" = inr (u "M")).
    { unfold get_strip, Csv.get, row, Csv.make_row; cbn [Csv.named].
      now rewrite (row_get_zip_row (u "size") header rec [] Hsize). }
    cbn [read_roster]. unfold row at 1.
    rewrite (make_row_not_empty header rec Hrec). fold row.
    now rewrite Hname, Hz.
Qed.

Lemma roster_size_defaults_witness :
  read_roster [Csv.make_row roster_header [u "Asha"; u "7"; u "  "]] []
  = inr ([] ++ [mkTeamRosterEntry (strip (u "Asha")) (strip (u "7")) Size.M]) /\
  read_roster [Csv.make_row roster_header [u "Asha"; u "7"; u " xxl "]] []
  = inr ([] ++ [mkTeamRosterEntry (strip (u "Asha")) (strip (u "7")) Size.XXL]) /\
  (let row := Csv.make_row [u "number"; u "name"; u "club"] [u "7"; u " Asha "] in
   read_roster [row] []
   = inr ([] ++ [mkTeamRosterEntry (u "Asha") (get_str_strip row "number" EmptyString)
                   Size.M])).
Proof.
  split; [|split].
  - exact (proj1 roster_size_defaults (u "Asha") (u "7") (u "  ") [] [] eq_refl).
  - exact (proj1 (proj2 roster_size_defaults) (u "Asha") (u "7") (u " xxl ") [] []
             Size.XXL eq_refl).
  - refine (proj2 (proj2 roster_size_defaults) [u "number"; u "name"; u "club"]
              [u "7"; u " Asha "] [] (u "Asha") _ eq_refl eq_refl).
    cbn. intros [H|[H|[H|[]]]]; discriminate H.
Defined.

(** ** Templates, further *)

Lemma create_all_listing (ts : list JerseyTemplate) :
  forall (s : Store) (l0 : list JerseyTemplate),
    available s = true ->
    map_result parse_template (templates s) = inr l0 ->
    available (create_all ts s) = true /\
    map_result parse_template (templates (create_all ts s)) = inr (l0 ++ ts).
Proof.
  induction ts as [|t ts IH]; intros s l0 Hup Hl0; cbn [create_all List.fold_left].
  - now rewrite app_nil_r.
  - fold (create_all ts (after (create_template t) s)).
    unfold after. rewrite (create_template_run s t Hup). cbn [snd].
    replace (l0 ++ t :: ts) with ((l0 ++ [t]) ++ ts) by now rewrite <- app_assoc.
    apply IH; [reflexivity|].
    unfold templates at 1; cbn [data]. rewrite coll_set_coll.
    apply map_result_app; [exact Hl0|]. apply JerseyTemplate_roundtrip.
Qed.

(** X11. Templates created one after the other are all listed, once
    each, with the templates the store already listed: the listing after
    the creations holds, in some order, what the listing before them held
    and the templates created. *)
Theorem created_templates_are_listed :
  forall (s : Store) (ts : list JerseyTemplate),
    available s = true ->
    Forall written_template (templates s) ->
    exists before listed : list JerseyTemplate,
      fst (serve list_templates s) = Ok (json_list JerseyTemplate_dump before) /\
      fst (serve list_templates (create_all ts s))
      = Ok (json_list JerseyTemplate_dump listed) /\
      Permutation listed (before ++ ts).
Proof.
  intros s ts Hup Hall.
  destruct (written_templates_parse _ Hall) as (l0 & Hl0).
  destruct (create_all_listing ts s l0 Hup Hl0) as (Hup' & Hl).
  exists l0, (l0 ++ ts). split; [|split].
  - now rewrite (list_templates_run s l0 Hup Hl0).
  - now rewrite (list_templates_run _ (l0 ++ ts) Hup' Hl).
  - apply Permutation_refl.
Qed.

Lemma created_templates_are_listed_witness :
  exists before listed : list JerseyTemplate,
    fst (serve list_templates empty_store) = Ok (json_list JerseyTemplate_dump before) /\
    fst (serve list_templates
           (create_all [sample_template;
                        mkJerseyTemplate hockey (u "Away") [] (Some (u "a.png")) None false;
                        sample_template] empty_store))
    = Ok (json_list JerseyTemplate_dump listed) /\
    Permutation listed
      (before ++ [sample_template;
                  mkJerseyTemplate hockey (u "Away") [] (Some (u "a.png")) None false;
                  sample_template]).
Proof.
  exact (created_templates_are_listed empty_store
           [sample_template;
            mkJerseyTemplate hockey (u "Away") [] (Some (u "a.png")) None false;
            sample_template] eq_refl (Forall_nil _)).
Defined.

Lemma JerseyTemplate_init_error (d : dict) (e : exn) :
  JerseyTemplate_init d = inl e -> e = ValidationError.
Proof.
  unfold JerseyTemplate_init.
  destruct (required _ _ _); [now intros [= <-]|].
  destruct (required _ _ _); [now intros [= <-]|].
  destruct (optional _ _ _ _); [now intros [= <-]|].
  destruct (optional _ _ _ _); [now intros [= <-]|].
  destruct (optional _ _ _ _); [now intros [= <-]|].
  destruct (optional _ _ _ _); [now intros [= <-]|discriminate].
Qed.

Lemma map_result_fails (docs : list dict) (d : dict) :
  In d docs ->
  (exists e, parse_template d = inl e) ->
  map_result parse_template docs = inl ValidationError.
Proof.
  intros Hin (e & He). induction docs as [|d0 docs IH]; [destruct Hin|].
  cbn [map_result].
  destruct (parse_template d0) as [e0|t0] eqn:E0.
  - now rewrite (JerseyTemplate_init_error _ _ E0).
  - destruct Hin as [->|Hin]; [congruence|]. now rewrite (IH Hin).
Qed.

(** X12. One stored template that lacks its sport or its name makes the
    whole listing fail: list_templates answers 500, with no partial
    list, however many well-formed templates the store holds. *)
Theorem list_templates_fails_on_malformed :
  forall (s : Store) (d : dict),
    available s = true ->
    In d (templates s) ->
    dict_get (u "sport") d = None \/ dict_get (u "name") d = None ->
    serve list_templates s = (Error 500 (DetailStr ValidationError), touch s).
Proof.
  intros s d Hup Hin Hmissing.
  assert (Hbad : exists e, parse_template d = inl e).
  { unfold parse_template, JerseyTemplate_init, required.
    destruct Hmissing as [H|H].
    - rewrite (dict_get_remove_other _id (u "sport") d eq_refl), H. now eexists.
    - rewrite (dict_get_remove_other _id (u "name") d eq_refl), H.
      destruct (dict_get (u "sport") _) as [v|]; [|now eexists].
      destruct (validate_literal _ _ v); now eexists. }
  unfold serve, list_templates, try_except, get_documents, find.
  unfold bind, lift. rewrite (access_up _ Hup).
  unfold read; cbn [touch data]. fold (templates s).
  change (fun d0 => JerseyTemplate_init (dict_remove _id d0)) with parse_template.
  now rewrite (map_result_fails _ d Hin Hbad).
Qed.

Lemma list_templates_fails_on_malformed_witness :
  let nameless := stored 9 [(u "sport", VStr (u "hockey"))] in
  let s := mkStore true
             (mkCollections [stored 8 (JerseyTemplate_dump sample_template); nameless]
                [] [] [] []) 10 0 in
  serve list_templates s = (Error 500 (DetailStr ValidationError), touch s).
Proof.
  exact (list_templates_fails_on_malformed
           (mkStore true
              (mkCollections [stored 8 (JerseyTemplate_dump sample_template);
                              stored 9 [(u "sport", VStr (u "hockey"))]]
                 [] [] [] []) 10 0)
           (stored 9 [(u "sport", VStr (u "hockey"))])
           eq_refl (or_intror (or_introl eq_refl)) (or_intror eq_refl)).
Defined.

Lemma JerseyTemplate_reads_its_fields (d d' : dict) :
  same_template_fields d d' -> JerseyTemplate_init d = JerseyTemplate_init d'.
Proof.
  intros H. unfold JerseyTemplate_init, required, optional.
  rewrite (H (u "sport")), (H (u "name")), (H (u "colors")), (H (u "preview_url")),
    (H (u "svg")), (H (u "is_public")); [reflexivity|..];
    unfold template_fields; auto 10 using in_eq, in_cons.
Qed.

Lemma parse_template_same (d d' : dict) :
  same_template_fields d d' -> parse_template d = parse_template d'.
Proof.
  intros H. apply JerseyTemplate_reads_its_fields. intros f Hf.
  assert (Hne : str_eqb f _id = false)
    by (destruct Hf as [<-|[<-|[<-|[<-|[<-|[<-|[]]]]]]]; reflexivity).
  rewrite !(dict_get_remove_other _id f) by exact Hne. now apply H.
Qed.

Lemma list_templates_eval (s : Store) :
  available s = true ->
  fst (serve list_templates s) =
  match map_result parse_template (templates s) with
  | inr ts => Ok (json_list JerseyTemplate_dump ts)
  | inl e => Error 500 (DetailStr e)
  end.
Proof.
  intros Hup.
  unfold serve, list_templates, try_except, get_documents, find.
  unfold bind, lift. rewrite (access_up _ Hup).
  unfold read; cbn [touch data]. fold (templates s).
  change (fun d0 => JerseyTemplate_init (dict_remove _id d0)) with parse_template.
  destruct (map_result parse_template (templates s)) as [e|ts]; [reflexivity|].
  unfold ret; cbn [respond fst]. now rewrite json_ok_templates.
Qed.

(** X13. What list_templates answers depends on the six fields of the
    stored documents only (sport, name, colors, preview_url, svg,
    is_public): two stores whose template documents agree on them, one
    by one, get the same answer, whatever the identifiers and the other
    keys of the documents. *)
Theorem list_templates_reads_fields_only :
  forall s s' : Store,
    available s = true -> available s' = true ->
    Forall2 same_template_fields (templates s) (templates s') ->
    fst (serve list_templates s) = fst (serve list_templates s').
Proof.
  intros s s' Hup Hup' Hall.
  rewrite (list_templates_eval s Hup), (list_templates_eval s' Hup').
  replace (map_result parse_template (templates s'))
    with (map_result parse_template (templates s)); [reflexivity|].
  induction Hall as [|d d' l l' Hd _ IH]; [reflexivity|].
  cbn [map_result]. now rewrite (parse_template_same d d' Hd), IH.
Qed.

Lemma list_templates_reads_fields_only_witness :
  let plain := mkStore true
                 (mkCollections [stored 1 (JerseyTemplate_dump sample_template)] [] [] [] [])
                 2 0 in
  let stamped := mkStore true
                   (mkCollections
                      [stored 40 ((u "created_at", VStr (u "2024-01-01"))
                                  :: JerseyTemplate_dump sample_template
                                  ++ [(u "id", VInt 5)])] [] [] [] [])
                   41 7 in
  fst (serve list_templates plain) = fst (serve list_templates stamped).
Proof.
  refine (list_templates_reads_fields_only
            (mkStore true
               (mkCollections [stored 1 (JerseyTemplate_dump sample_template)] [] [] [] [])
               2 0)
            (mkStore true
               (mkCollections
                  [stored 40 ((u "created_at", VStr (u "2024-01-01"))
                              :: JerseyTemplate_dump sample_template
                              ++ [(u "id", VInt 5)])] [] [] [] [])
               41 7)
            eq_refl eq_refl _).
  repeat constructor.
  intros f [<-|[<-|[<-|[<-|[<-|[<-|[]]]]]]]; reflexivity.
Defined.

(** ** Tiers: create, then resolve *)

Lemma PricingTier_dump_no_id (t : PricingTier) :
  dict_remove _id (PricingTier_dump t) = PricingTier_dump t.
Proof. reflexivity. Qed.

Lemma create_tier_run (s : Store) (t : PricingTier) :
  available s = true ->
  int64 (min_quantity t) = true ->
  serve (create_tier t) s =
    (Ok (VDict [(u "id", VStr (ObjectId.to_str (next_id s)))]),
     mkStore true
       (set_coll pricingtier (tiers s ++ [stored (next_id s) (PricingTier_dump t)]) (data s))
       (N.succ (next_id s)) (S (accesses s))).
Proof.
  intros Hup H64. unfold serve, create_tier, try_except.
  unfold bind at 1. rewrite create_document_run;
    [|exact Hup|rewrite PricingTier_dump_no_id; now apply encode_error_tier].
  now rewrite PricingTier_dump_no_id.
Qed.

Lemma int64_between (a b c : Z) :
  int64 a = true -> int64 c = true -> (a <= b <= c)%Z -> int64 b = true.
Proof.
  unfold int64. intros Ha Hc Hb.
  apply andb_true_iff in Ha as [Ha _]. apply andb_true_iff in Hc as [_ Hc].
  apply Z.leb_le in Ha. apply Z.ltb_lt in Hc.
  apply andb_true_iff. split; [apply Z.leb_le|apply Z.ltb_lt]; lia.
Qed.

(** X14. A tier created through create_tier (its min_quantity at least
    1, as PricingTier asks) is found by the pricing lookup: for every
    quantity q at least its min_quantity that fits eight bytes, in a
    store that answers and whose tiers hold no array under min_quantity,
    the lookup then selects a tier (no fallback) whose min_quantity lies
    between that of the new tier and q; and it selects the new tier
    itself when every tier stored before with min_quantity at most q has
    a smaller min_quantity. *)
Theorem created_tier_is_resolved :
  forall (s : Store) (t : PricingTier) (q : Z),
    available s = true ->
    scalar_tiers s = true ->
    (1 <= min_quantity t <= q)%Z ->
    int64 q = true ->
    let s' := after (create_tier t) s in
    let new := numeric_of_int (min_quantity t) in
    exists (d : dict) (m : numeric),
      fst (resolve_tier q s') = inr (Some d) /\
      min_quantity_of d = Some m /\
      numeric_le new m /\ numeric_le m (numeric_of_int q) /\
      ((forall d' m', In d' (tiers s) -> min_quantity_of d' = Some m' ->
                      numeric_le m' (numeric_of_int q) -> numeric_lt m' new) ->
       d = stored (next_id s) (PricingTier_dump t)).
Proof.
  intros s t q Hup _ [H1 Hq] H64 s' new.
  assert (Ht : int64 (min_quantity t) = true)
    by (apply (int64_between 1 _ q); [reflexivity|exact H64|lia]).
  unfold s', after. rewrite (create_tier_run s t Hup Ht). cbn [snd].
  set (s1 := mkStore true _ _ _).
  set (doc := stored (next_id s) (PricingTier_dump t)).
  assert (Htiers : tiers s1 = tiers s ++ [doc])
    by (unfold tiers, s1; cbn [data]; now rewrite coll_set_coll).
  assert (Hnew : min_quantity_of doc = Some new) by reflexivity.
  assert (Hle : numeric_le new (numeric_of_int q)) by now apply numeric_of_int_le.
  rewrite (resolve_tier_run s1 q eq_refl H64). cbn [fst].
  pose proof (first_lte_desc_spec min_quantity_key q (tiers s1)) as Hspec.
  destruct (first_lte_desc min_quantity_key q (tiers s1)) as [d|].
  - destruct Hspec as (Hin & m & Hm & Hmq & Hmax).
    exists d, m. split; [reflexivity|]. split; [exact Hm|].
    assert (Hge : numeric_le new m).
    { apply (Hmax doc new); [|exact Hnew|exact Hle].
      rewrite Htiers. apply in_or_app. right. now left. }
    split; [exact Hge|]. split; [exact Hmq|]. intros Hsmaller.
    rewrite Htiers in Hin. apply in_app_or in Hin as [Hin|[<-|[]]]; [|reflexivity].
    specialize (Hsmaller d m Hin Hm Hmq). unfold numeric_lt in Hsmaller.
    unfold numeric_le in Hge. congruence.
  - exfalso. specialize (Hspec doc new).
    rewrite Htiers in Hspec.
    assert (Hlt : numeric_lt (numeric_of_int q) new)
      by (apply Hspec; [apply in_or_app; right; now left|exact Hnew]).
    unfold numeric_lt in Hlt. unfold numeric_le in Hle. congruence.
Qed.

Lemma created_tier_is_resolved_witness :
  let s' := after (create_tier (mkPricingTier (u "Club") 849 12 [])) three_tiers in
  let new := numeric_of_int 12 in
  exists (d : dict) (m : numeric),
    fst (resolve_tier 15 s') = inr (Some d) /\
    min_quantity_of d = Some m /\
    numeric_le new m /\ numeric_le m (numeric_of_int 15) /\
    ((forall d' m', In d' (tiers three_tiers) -> min_quantity_of d' = Some m' ->
                    numeric_le m' (numeric_of_int 15) -> numeric_lt m' new) ->
     d = stored (next_id three_tiers) (PricingTier_dump (mkPricingTier (u "Club") 849 12 []))).
Proof.
  exact (created_tier_is_resolved three_tiers (mkPricingTier (u "Club") 849 12 []) 15
           eq_refl eq_refl ltac:(cbn; lia) eq_refl).
Defined.

(** ** What the handlers keep *)

Lemma keeps_refl (s : Store) : keeps s s.
Proof. split; [reflexivity|]. intros c. exists []. now rewrite app_nil_r. Qed.

Lemma keeps_trans (s1 s2 s3 : Store) : keeps s1 s2 -> keeps s2 s3 -> keeps s1 s3.
Proof.
  intros [Ha H12] [Ha' H23]. split; [congruence|].
  intros c. destruct (H12 c) as (n1 & E1). destruct (H23 c) as (n2 & E2).
  exists (n1 ++ n2). now rewrite E2, E1, app_assoc.
Qed.

Lemma keeps_touch (s : Store) : keeps s (touch s).
Proof. split; [reflexivity|]. intros c. exists []. now rewrite app_nil_r. Qed.

Lemma keeping_ret (A : Type) (a : A) : keeping (ret a).
Proof. intros s. apply keeps_refl. Qed.

Lemma keeping_raise (A : Type) (e : exn) : keeping (@raise A e).
Proof. intros s. apply keeps_refl. Qed.

Lemma keeping_lift (A : Type) (r : result A) : keeping (lift r).
Proof. intros s. apply keeps_refl. Qed.

Lemma keeping_bind (A B : Type) (m : M A) (k : A -> M B) :
  keeping m -> (forall a, keeping (k a)) -> keeping (bind m k).
Proof.
  intros Hm Hk s. unfold bind. specialize (Hm s).
  destruct (m s) as [[e|a] s1]; cbn [snd] in *; [exact Hm|].
  exact (keeps_trans _ _ _ Hm (Hk a s1)).
Qed.

Lemma keeping_try (A : Type) (m : M A) (handler : exn -> M A) :
  keeping m -> (forall e, keeping (handler e)) -> keeping (try_except m handler).
Proof.
  intros Hm Hh s. unfold try_except. specialize (Hm s).
  destruct (m s) as [[e|a] s1]; cbn [snd] in *; [|exact Hm].
  exact (keeps_trans _ _ _ Hm (Hh e s1)).
Qed.

Lemma keeping_access : keeping access.
Proof. intros s. unfold access. destruct (available s); apply keeps_touch. Qed.

Lemma keeping_read (c : collection) : keeping (read c).
Proof. intros s. apply keeps_refl. Qed.

Lemma ids_set_coll_same (c : collection) (docs : list dict) (s : Store) (a : bool) (n : N)
  (k : nat) :
  ids c (mkStore a (set_coll c docs (data s)) n k) = List.map (dict_get _id) docs.
Proof. unfold ids; cbn [data]. now rewrite coll_set_coll. Qed.

Lemma ids_set_coll_other (c c' : collection) (docs : list dict) (s : Store) (a : bool)
  (n : N) (k : nat) :
  c <> c' -> ids c' (mkStore a (set_coll c docs (data s)) n k) = ids c' s.
Proof. intros H. unfold ids; cbn [data]. destruct c, c'; try reflexivity; now destruct H. Qed.

Lemma collection_eq_dec (c c' : collection) : {c = c'} + {c <> c'}.
Proof. decide equality. Qed.

Lemma keeping_insert_one (c : collection) (doc : dict) : keeping (insert_one c doc).
Proof.
  intros s. unfold insert_one, bind, access, encode.
  destruct (available s) eqn:Hup; [|apply keeps_touch].
  destruct (encode_error (VDict doc)); [apply keeps_touch|].
  cbn. split; [now rewrite Hup|]. intros c'.
  destruct (collection_eq_dec c c') as [<-|Hne].
  - rewrite ids_set_coll_same, map_app. now eexists.
  - rewrite (ids_set_coll_other c c' _ (touch s)) by exact Hne.
    exists []. now rewrite app_nil_r.
Qed.

Lemma ids_set_first (o : N) (k : str) (v : value) (docs : list dict) :
  str_eqb _id k = false ->
  List.map (dict_get _id) (set_first o k v docs) = List.map (dict_get _id) docs.
Proof.
  intros Hk. induction docs as [|d docs IH]; [reflexivity|]. cbn [set_first].
  destruct (has_id o d); cbn [List.map]; [|now rewrite IH].
  now rewrite dict_get_set_other.
Qed.

Lemma keeping_update_one_set (c : collection) (oid : option N) (k : str) (v : value) :
  str_eqb _id k = false -> keeping (update_one_set c oid k v).
Proof.
  intros Hk s. unfold update_one_set, bind, access, encode.
  destruct (available s) eqn:Hup; [|apply keeps_touch].
  destruct (encode_error v); [apply keeps_touch|].
  cbn. split; [now rewrite Hup|]. intros c'. exists []. rewrite app_nil_r.
  destruct (collection_eq_dec c c') as [<-|Hne].
  - rewrite ids_set_coll_same. destruct oid; [now apply ids_set_first|reflexivity].
  - now rewrite (ids_set_coll_other c c' _ (touch s)) by exact Hne.
Qed.

Lemma keeping_encode (v : value) : keeping (encode v).
Proof. intros s. unfold encode. destruct (encode_error v); apply keeps_refl. Qed.

Lemma keeping_create_document (c : collection) (d : dict) : keeping (create_document c d).
Proof.
  unfold create_document. apply keeping_bind; [apply keeping_insert_one|].
  intros a. apply keeping_ret.
Qed.

Lemma keeping_http_500 (A : Type) (e : exn) : keeping (@http_500 A e).
Proof. apply keeping_raise. Qed.

Ltac keep :=
  repeat first
    [ apply keeping_create_document | apply keeping_insert_one
    | apply keeping_access | apply keeping_encode | apply keeping_read
    | apply keeping_http_500
    | apply keeping_ret | apply keeping_raise | apply keeping_lift
    | apply keeping_try | apply keeping_bind
    | match goal with |- forall _, _ => intro end ].

(** X15. No handler deletes, moves or re-identifies a stored document:
    after any request, answered or failed, every collection holds the
    documents it held, under the same identifiers and in the same order,
    before whatever the request added; and the store answers as it did. *)
Theorem handlers_keep_documents :
  forall (r : request) (s : Store), keeps s (after (handle r) s).
Proof.
  intros r s.
  assert (H : keeping (handle r)); [|unfold after, serve; specialize (H s);
                                     now destruct (handle r s)].
  destruct r; cbn [handle].
  - unfold list_templates, get_documents, find. keep.
  - unfold create_template. keep.
  - unfold import_team; cbv zeta. keep.
  - unfold checkout, resolve_tier, find_one_lte_desc. keep.
  - unfold update_status, invalid_order_id.
    destruct (ObjectId.is_valid order_id); cbn [negb]; [|apply keeping_raise].
    apply keeping_try; [|keep].
    apply keeping_bind; [now apply keeping_update_one_set|keep].
  - unfold get_order, invalid_order_id, find_one_by_id.
    destruct (ObjectId.is_valid order_id); cbn [negb]; [|apply keeping_raise].
    apply keeping_bind; [keep|]. intros [d|]; keep.
  - unfold create_tier. keep.
Qed.

(** ** What the handlers leave alone *)

(** X16. The two GET handlers write nothing: after list_templates and
    after get_order, whatever they answer, the stored documents and the
    next identifier are what they were. *)
Theorem get_handlers_write_nothing :
  forall (s : Store) (order_id : str),
    (data (after list_templates s) = data s /\
     next_id (after list_templates s) = next_id s) /\
    (data (after (get_order order_id) s) = data s /\
     next_id (after (get_order order_id) s) = next_id s).
Proof.
  intros s order_id. split.
  - unfold after, serve, list_templates, try_except, get_documents, find, bind, access.
    destruct (available s); cbn; [|now split].
    destruct (map_result _ _); now split.
  - unfold after, serve, get_order, invalid_order_id, find_one_by_id, bind, access.
    destruct (ObjectId.is_valid order_id); cbn [negb]; [|now split].
    destruct (available s); cbn; [|now split].
    destruct (List.find _ _); now split.
Qed.

Lemma set_first_frame (o : N) (k : str) (v : value) (docs : list dict) :
  Forall2 (fun d d' =>
             (forall k', k' <> k -> dict_get k' d' = dict_get k' d) /\
             (has_id o d = false -> d' = d))
          docs (set_first o k v docs).
Proof.
  induction docs as [|d docs IH]; [constructor|]. cbn [set_first].
  destruct (has_id o d) eqn:E; constructor.
  - split; [|cbv beta; congruence]. intros k' Hk'.
    apply dict_get_set_other. now apply str_eqb_neq.
  - clear IH. induction docs; constructor; [now split|assumption].
  - now split.
  - exact IH.
Qed.

Lemma Forall2_same (A : Type) (P : A -> A -> Prop) (l : list A) :
  (forall a, P a a) -> Forall2 P l l.
Proof. intros H. induction l; constructor; auto. Qed.

(** X17. update_status touches the status of the addressed order and
    nothing else: the other collections are as they were, the orders are
    as many and in the same order, every order keeps all its fields but
    status, and an order under another identifier is unchanged; this for
    every store and every input, malformed identifiers included. *)
Theorem update_status_changes_status_only :
  forall (s : Store) (order_id : str) (payload : UpdateStatus),
    let s' := after (update_status order_id payload) s in
    (forall c, c <> jerseyorder -> coll c (data s') = coll c (data s)) /\
    Forall2 (fun d d' =>
               (forall k, k <> u "status" -> dict_get k d' = dict_get k d) /\
               (forall oid, ObjectId.from_str order_id = Some oid ->
                            has_id oid d = false -> d' = d))
            (orders s) (orders s').
Proof.
  intros s order_id payload s'. unfold s', after, serve, update_status, invalid_order_id.
  destruct (ObjectId.is_valid order_id); cbn [negb];
    [|cbn; split; [reflexivity|]; apply Forall2_same; now split].
  unfold try_except, update_one_set, bind, access, encode.
  destruct (available s);
    cbn [snd fst touch read write ret http_500 raise data encode_error].
  - split.
    + intros c Hc. destruct c; try reflexivity. now destruct Hc.
    + unfold orders; cbn [data]. rewrite coll_set_coll.
      destruct (ObjectId.from_str order_id) as [oid|].
      * eapply Forall2_impl; [|apply set_first_frame].
        intros d d' [H1 H2]. split; [exact H1|]. now intros oid' [= <-].
      * apply Forall2_same. now split.
  - split; [reflexivity|]. apply Forall2_same. now split.
Qed.

(** ** The outcomes of checkout *)

Lemma orders_with_order (s : Store) (d : dict) :
  orders (with_order s d) = orders s ++ [stored (next_id s) d].
Proof. unfold orders, with_order; cbn [data]. now rewrite coll_set_coll. Qed.

Lemma others_with_order (s : Store) (d : dict) (c : collection) :
  c <> jerseyorder -> coll c (data (with_order s d)) = coll c (data s).
Proof. intros H. unfold with_order; cbn [data]. destruct c; try reflexivity. now destruct H. Qed.

Lemma payments_with_payment (s : Store) (d : dict) :
  payments (with_payment s d) = payments s ++ [stored (next_id s) d].
Proof. unfold payments, with_payment; cbn [data]. now rewrite coll_set_coll. Qed.

Lemma others_with_payment (s : Store) (d : dict) (c : collection) :
  c <> paymentintent -> coll c (data (with_payment s d)) = coll c (data s).
Proof. intros H. unfold with_payment; cbn [data]. destruct c; try reflexivity. now destruct H. Qed.

(** X18. Whatever the request and the store, checkout adds at most one
    order and at most one payment intent, never a payment intent without
    its order, and answers 200 only when it has added both; it writes to
    no other collection. *)
Theorem checkout_outcomes :
  forall (s : Store) (req : CheckoutRequest),
    let (r, s') := serve (checkout req) s in
    exists new_orders new_payments : list dict,
      orders s' = orders s ++ new_orders /\
      payments s' = payments s ++ new_payments /\
      (List.length new_payments <= List.length new_orders <= 1)%nat /\
      (forall body, r = Ok body ->
         List.length new_orders = 1%nat /\ List.length new_payments = 1%nat) /\
      templates s' = templates s /\ teams s' = teams s /\ tiers s' = tiers s.
Proof.
  intros s req.
  assert (Hnone : forall e s0, data s0 = data s ->
            exists new_orders new_payments : list dict,
              orders s0 = orders s ++ new_orders /\
              payments s0 = payments s ++ new_payments /\
              (List.length new_payments <= List.length new_orders <= 1)%nat /\
              (forall body, Error 500 (DetailStr e) = Ok body ->
                 List.length new_orders = 1%nat /\ List.length new_payments = 1%nat) /\
              templates s0 = templates s /\ teams s0 = teams s /\
              tiers s0 = tiers s).
  { intros e s0 H0. exists [], [].
    unfold orders, payments, templates, teams, tiers.
    rewrite H0, !app_nil_r. cbn [List.length].
    repeat split; try lia; discriminate. }
  unfold serve, checkout, try_except.
  unfold bind at 1, resolve_tier, find_one_lte_desc.
  unfold bind at 1, access.
  destruct (available s) eqn:Hup; [|exact (Hnone StorageError (touch s) eq_refl)].
  unfold bind at 1, encode; cbn [encode_error].
  destruct (int64 (req_quantity req)); [|exact (Hnone OverflowError (touch s) eq_refl)].
  unfold ret at 1.
  unfold bind at 1, read at 1, ret at 1.
  step. destruct (tier_base_price _) as [e|bp]; [exact (Hnone e (touch s) eq_refl)|].
  step. destruct (compute_amount bp (req_quantity req)) as [e|amount];
    [exact (Hnone e (touch s) eq_refl)|].
  step. destruct (JerseyOrder_init _ _ _ _ _ _ _ _ _ _) as [e|order];
    [exact (Hnone e (touch s) eq_refl)|].
  unfold bind at 1.
  destruct (encode_error (VDict (dict_remove _id (JerseyOrder_dump order)))) as [e|] eqn:Henc;
    [rewrite (create_document_refused (touch s) jerseyorder _ e Hup Henc);
     exact (Hnone e (touch (touch s)) eq_refl)|].
  rewrite create_document_run; [|exact Hup|exact Henc].
  fold (orders (touch s)). cbn [next_id accesses touch].
  change (mkStore true _ (N.succ (next_id s)) (S (S (accesses s))))
    with (with_order s (dict_remove _id (JerseyOrder_dump order))).
  set (s1 := with_order s _).
  step. destruct (PaymentIntent_init _ _ _) as [e|pay].
  - cbn [http_500 raise respond].
    exists [stored (next_id s) (dict_remove _id (JerseyOrder_dump order))], [].
    rewrite app_nil_r. unfold s1.
    split; [apply orders_with_order|].
    split; [apply others_with_order; discriminate|].
    split; [cbn; lia|]. split; [discriminate|].
    repeat split; apply others_with_order; discriminate.
  - unfold bind at 1. rewrite create_document_run;
      [|reflexivity|rewrite PaymentIntent_dump_no_id; apply encode_error_payment].
    fold (payments s1).
    change (mkStore true _ (N.succ (next_id s1)) (S (accesses s1)))
      with (with_payment s1 (dict_remove _id (PaymentIntent_dump pay))).
    set (s2 := with_payment s1 _).
    assert (Hboth :
              orders s2 = orders s ++
                [stored (next_id s) (dict_remove _id (JerseyOrder_dump order))] /\
              payments s2 = payments s ++
                [stored (next_id s1) (dict_remove _id (PaymentIntent_dump pay))] /\
              templates s2 = templates s /\ teams s2 = teams s /\ tiers s2 = tiers s).
    { unfold s2, s1. split.
      - unfold orders at 1. rewrite others_with_payment by discriminate.
        apply orders_with_order.
      - split.
        + rewrite payments_with_payment. reflexivity.
        + unfold templates, teams, tiers.
          rewrite !others_with_payment, !others_with_order by discriminate.
          repeat split. }
    destruct Hboth as (Ho & Hp & Ht).
    unfold ret; cbn [respond].
    destruct (json_ok _);
      (eexists; eexists; split; [exact Ho|]; split; [exact Hp|];
       split; [cbn; lia|]; split; [|exact Ht]).
    + intros body _. now split.
    + discriminate.
Qed.

(** X19. The pricing lookup is monotone in the quantity: when it selects
    a tier for q, it selects a tier for every q' above q that fits eight
    bytes, and one whose min_quantity is at least as large (and at most
    q'); this in a store that answers and whose tiers hold no array under
    min_quantity. *)
Theorem resolver_is_monotone :
  forall (s : Store) (q q' : Z) (d : dict) (m : numeric),
    available s = true ->
    scalar_tiers s = true ->
    (q <= q')%Z ->
    int64 q' = true ->
    fst (resolve_tier q s) = inr (Some d) ->
    min_quantity_of d = Some m ->
    exists (d' : dict) (m' : numeric),
      fst (resolve_tier q' s) = inr (Some d') /\
      min_quantity_of d' = Some m' /\
      numeric_le m m' /\ numeric_le m' (numeric_of_int q').
Proof.
  intros s q q' d m Hup _ Hqq H64 Hres Hm.
  apply (resolve_tier_inv s q _ Hup) in Hres as [_ Hres]. symmetry in Hres.
  rewrite (resolve_tier_run s q' Hup H64). cbn [fst].
  pose proof (first_lte_desc_spec min_quantity_key q (tiers s)) as Hq.
  pose proof (first_lte_desc_spec min_quantity_key q' (tiers s)) as Hq'.
  rewrite Hres in Hq.
  destruct Hq as (Hin & m0 & Hm0 & Hle & _).
  unfold min_quantity_of in Hm. rewrite Hm in Hm0. injection Hm0 as <-.
  assert (Hle' : numeric_le m (numeric_of_int q'))
    by exact (numeric_leb_trans _ _ _ Hle (numeric_of_int_le q q' Hqq)).
  destruct (first_lte_desc min_quantity_key q' (tiers s)) as [d'|].
  - destruct Hq' as (_ & m' & Hm' & Hmq' & Hmax).
    exists d', m'. split; [reflexivity|]. split; [exact Hm'|].
    split; [|exact Hmq']. exact (Hmax d m Hin Hm Hle').
  - specialize (Hq' d m Hin Hm). unfold numeric_lt in Hq'.
    unfold numeric_le in Hle'. congruence.
Qed.

Lemma resolver_is_monotone_witness :
  exists (d' : dict) (m' : numeric),
    fst (resolve_tier 40 three_tiers) = inr (Some d') /\
    min_quantity_of d' = Some m' /\
    numeric_le (numeric_of_int 10) m' /\ numeric_le m' (numeric_of_int 40).
Proof.
  exact (resolver_is_monotone three_tiers 15 40
           (stored 1 (PricingTier_dump pro_tier)) (numeric_of_int 10)
           eq_refl eq_refl ltac:(cbn; lia) eq_refl eq_refl eq_refl).
Defined.

Lemma JerseyOrder_init_ok (n e p a : str) (team template : option str)
  (design : JerseyDesign) (q : Z) (tier : value) (amount : float) (o : JerseyOrder) :
  JerseyOrder_init n e p a team template design q tier amount = inr o ->
  (1 <= q)%Z /\ ge0 amount = true /\
  exists t, o = mkJerseyOrder n e p a team template design q t amount pending Confirmed.
Proof.
  unfold JerseyOrder_init.
  destruct (validate_optional_str tier) as [e0|t]; [discriminate|].
  destruct (1 <=? q)%Z eqn:Hq; [|discriminate].
  destruct (ge0 amount) eqn:Ha; [|discriminate].
  cbn [andb]. intros [= <-].
  apply Z.leb_le in Hq. repeat split; auto. now exists t.
Qed.

(** X20. Every order checkout writes passed the validation of JerseyOrder:
    an order that is in the store after a checkout and was not there
    before holds the requested quantity, which is at least 1, an amount
    that is neither negative nor nan, the status Confirmed and the
    payment status pending. *)
Theorem checkout_writes_valid_orders :
  forall (s : Store) (req : CheckoutRequest) (d : dict),
    In d (orders (after (checkout req) s)) ->
    In d (orders s) \/
    ((1 <= req_quantity req)%Z /\
     dict_get (u "quantity") d = Some (VInt (req_quantity req)) /\
     (exists a, dict_get (u "amount") d = Some (VFloat a) /\ ge0 a = true) /\
     dict_get (u "status") d = Some (VStr (u "Confirmed")) /\
     dict_get (u "payment_status") d = Some (VStr (u "pending"))).
Proof.
  intros s req d. unfold after, serve, checkout, try_except.
  unfold bind at 1, resolve_tier, find_one_lte_desc.
  unfold bind at 1, access.
  destruct (available s) eqn:Hup; [|cbn; now left].
  unfold bind at 1, encode; cbn [encode_error].
  destruct (int64 (req_quantity req)); [|cbn; now left].
  unfold ret at 1.
  unfold bind at 1, read at 1, ret at 1.
  step. destruct (tier_base_price _) as [e|bp]; [cbn; now left|].
  step. destruct (compute_amount bp (req_quantity req)) as [e|amount]; [cbn; now left|].
  step. destruct (JerseyOrder_init _ _ _ _ _ _ _ _ _ _) as [e|order] eqn:Horder;
    [cbn; now left|].
  apply JerseyOrder_init_ok in Horder as (Hq & Ha & t & ->).
  unfold bind at 1.
  destruct (encode_error (VDict (dict_remove _id (JerseyOrder_dump
              (mkJerseyOrder (req_customer_name req) (req_customer_email req)
                 (req_customer_phone req) (req_shipping_address req) (req_team_id req)
                 (req_template_id req) (req_design req) (req_quantity req) t amount
                 pending Confirmed))))) as [e|] eqn:Henc;
    [rewrite (create_document_refused (touch s) jerseyorder _ e Hup Henc); cbn; now left|].
  rewrite create_document_run; [|exact Hup|exact Henc].
  fold (orders (touch s)). cbn [next_id accesses touch].
  change (mkStore true _ (N.succ (next_id s)) (S (S (accesses s))))
    with (with_order s (dict_remove _id
            (JerseyOrder_dump (placed_order req t amount)))).
  set (s1 := with_order s _).
  assert (Hnew : forall s2, orders s2 = orders s1 -> In d (orders s2) ->
            In d (orders s) \/
            ((1 <= req_quantity req)%Z /\
             dict_get (u "quantity") d = Some (VInt (req_quantity req)) /\
             (exists a, dict_get (u "amount") d = Some (VFloat a) /\ ge0 a = true) /\
             dict_get (u "status") d = Some (VStr (u "Confirmed")) /\
             dict_get (u "payment_status") d = Some (VStr (u "pending")))).
  { intros s2 -> Hin. unfold s1 in Hin. rewrite orders_with_order in Hin.
    apply in_app_or in Hin as [Hin|[<-|[]]]; [now left|right].
    split; [exact Hq|]. split; [reflexivity|].
    split; [now exists amount|]. now split. }
  step. destruct (PaymentIntent_init _ _ _) as [e|pay].
  - cbn [http_500 raise snd]. now apply Hnew.
  - unfold bind at 1. rewrite create_document_run;
      [|reflexivity|rewrite PaymentIntent_dump_no_id; apply encode_error_payment].
    unfold ret; cbn [snd]. apply Hnew.
    unfold orders; cbn [data]. now destruct (data s1).
Qed.

Lemma checkout_writes_valid_orders_witness :
  let req := order_request 15 "cash" in
  let d := stored 3 (JerseyOrder_dump (placed_order req (Some (u "Pro")) 13485)) in
  In d (orders three_tiers) \/
  ((1 <= req_quantity req)%Z /\
   dict_get (u "quantity") d = Some (VInt (req_quantity req)) /\
   (exists a, dict_get (u "amount") d = Some (VFloat a) /\ ge0 a = true) /\
   dict_get (u "status") d = Some (VStr (u "Confirmed")) /\
   dict_get (u "payment_status") d = Some (VStr (u "pending"))).
Proof.
  exact (checkout_writes_valid_orders three_tiers (order_request 15 "cash")
           (stored 3 (JerseyOrder_dump
                        (placed_order (order_request 15 "cash") (Some (u "Pro")) 13485)))
           (or_introl eq_refl)).
Defined.
